(** * dblp_crawler: the fetch-and-aggregate core

    A shallow embedding of [src/dblp_crawler.py]: the retrying fetcher
    [get_dblp_results], the record normalisation it performs on every hit,
    the artifact downloader [download_bibtex] and the nested loops of [main].

    Python values that come out of [response.json()] are dynamically typed,
    so they are kept as a [json] tree and every attribute access, subscript,
    iteration and conversion is a partial operation that may raise.  Effects
    (calls of [session.get], [time.sleep], [logging.*], file writes) are
    recorded as a chronological list of events; the only state that is read
    back is the number of [session.get] calls already made, which indexes the
    scripted behaviour of the session. *)

From Stdlib Require Import ZArith List String Ascii Bool Lia Sorted.
Import ListNotations.

Open Scope string_scope.
Open Scope list_scope.
Open Scope Z_scope.

Infix "+++" := String.append (at level 60, right associativity).

Set Warnings "-register-all".

(** ** Python values and exceptions *)

(** The objects produced by [json.loads]: [None], [bool], [int], [str],
    [list] and [dict].  A [dict] is kept as its list of items; a lookup takes
    the first binding of a key.  Numbers with a fractional part are not
    represented. *)
Inductive json : Type :=
| JNull
| JBool (b : bool)
| JNum (z : Z)
| JStr (s : string)
| JArr (items : list json)
| JObj (fields : list (string * json)).

(** The subclasses of [requests.exceptions.RequestException] that matter. *)
Inductive request_error : Type :=
| ConnectionError
| Timeout
| RetryError
| HTTPError (status : Z)
| JSONDecodeError
| OtherRequestError (detail : string).

Inductive exn : Type :=
| RequestException (e : request_error)
| KeyError (key : string)
| ValueError
| TypeError
| AttributeError
| OverflowError
| OSError.

Inductive result (A : Type) : Type :=
| Ok (a : A)
| Raise (e : exn).

Arguments Ok {A} a.
Arguments Raise {A} e.

Definition rbind {A B : Type} (r : result A) (f : A -> result B) : result B :=
  match r with
  | Ok a => f a
  | Raise e => Raise e
  end.

Fixpoint rmap {A B : Type} (f : A -> result B) (l : list A) : result (list B) :=
  match l with
  | [] => Ok []
  | x :: rest =>
      rbind (f x) (fun y => rbind (rmap f rest) (fun ys => Ok (y :: ys)))
  end.

(** ** Built-in operations *)

Fixpoint lookup {V : Type} (k : string) (kv : list (string * V)) : option V :=
  match kv with
  | [] => None
  | (k', v) :: rest => if String.eqb k k' then Some v else lookup k rest
  end.

(** [o.get(k, d)]: only a [dict] has the method. *)
Definition py_get (o : json) (k : string) (d : json) : result json :=
  match o with
  | JObj kv => Ok (match lookup k kv with Some v => v | None => d end)
  | _ => Raise AttributeError
  end.

(** [o[k]] with a string key. *)
Definition py_getitem (o : json) (k : string) : result json :=
  match o with
  | JObj kv => match lookup k kv with Some v => Ok v | None => Raise (KeyError k) end
  | _ => Raise TypeError
  end.

(** [v == s] for a string literal [s]. *)
Definition py_eq_str (v : json) (s : string) : bool :=
  match v with
  | JStr t => String.eqb t s
  | _ => false
  end.

(** [str.lower] on ASCII letters; other bytes are left alone. *)
Definition lower_char (c : ascii) : ascii :=
  let n := nat_of_ascii c in
  if ((65 <=? n) && (n <=? 90))%nat then ascii_of_nat (n + 32) else c.

Fixpoint lower (s : string) : string :=
  match s with
  | EmptyString => EmptyString
  | String c rest => String (lower_char c) (lower rest)
  end.

(** [int(s)] for a string: surrounding whitespace is stripped, one sign is
    allowed, then decimal digits with single underscores between digits.
    Non-ASCII digits and the interpreter's digit-count limit are not
    represented. *)
Definition is_space (c : ascii) : bool :=
  let n := nat_of_ascii c in
  (((9 <=? n) && (n <=? 13)) || ((28 <=? n) && (n <=? 32)))%nat.

Definition is_digit (c : ascii) : bool :=
  let n := nat_of_ascii c in ((48 <=? n) && (n <=? 57))%nat.

Definition digit_value (c : ascii) : Z := Z.of_nat (nat_of_ascii c) - 48.

Fixpoint drop_spaces (cs : list ascii) : list ascii :=
  match cs with
  | c :: rest => if is_space c then drop_spaces rest else cs
  | [] => []
  end.

Definition strip (cs : list ascii) : list ascii :=
  rev (drop_spaces (rev (drop_spaces cs))).

Fixpoint digits_value (acc : Z) (after_digit : bool) (cs : list ascii) : option Z :=
  match cs with
  | [] => if after_digit then Some acc else None
  | c :: rest =>
      if is_digit c then digits_value (10 * acc + digit_value c) true rest
      else if Ascii.eqb c "_"%char && after_digit then digits_value acc false rest
      else None
  end.

Definition int_of_string (s : string) : option Z :=
  match strip (list_ascii_of_string s) with
  | "-"%char :: ds => option_map Z.opp (digits_value 0 false ds)
  | "+"%char :: ds => digits_value 0 false ds
  | ds => digits_value 0 false ds
  end.

(** [int(v)]. *)
Definition py_int (v : json) : result Z :=
  match v with
  | JNum z => Ok z
  | JBool b => Ok (if b then 1 else 0)
  | JStr s => match int_of_string s with Some z => Ok z | None => Raise ValueError end
  | JNull | JArr _ | JObj _ => Raise TypeError
  end.

(** The items a [for] loop draws from a value: the elements of a list, the
    one-character strings of a string; numbers, booleans and [None] are not
    iterable.  (The loop in the source never sees a [dict]: it is wrapped in
    a list first.  Iterating one would give its keys.) *)
Fixpoint chars (s : string) : list json :=
  match s with
  | EmptyString => []
  | String c rest => JStr (String c EmptyString) :: chars rest
  end.

Definition py_iter (v : json) : result (list json) :=
  match v with
  | JArr l => Ok l
  | JStr s => Ok (chars s)
  | JObj kv => Ok (map (fun p => JStr (fst p)) kv)
  | JNull | JBool _ | JNum _ => Raise TypeError
  end.

(** [sep.join(items)]: every item must be a [str]. *)
Fixpoint strings_of (l : list json) : result (list string) :=
  match l with
  | [] => Ok []
  | JStr s :: rest => rbind (strings_of rest) (fun ss => Ok (s :: ss))
  | _ :: _ => Raise TypeError
  end.

Definition py_join (sep : string) (items : list json) : result string :=
  rbind (strings_of items) (fun ss => Ok (String.concat sep ss)).

(** ** The HTTP session and the effects of the program *)

(** One call of [session.get]: the URL, the further positional arguments
    (the source passes [headers] positionally at one call site), and the
    keyword arguments [params], [headers] and [timeout]. *)
Record request : Type := mkRequest {
  rq_url : json;
  rq_args : list (list (string * string));
  rq_params : option (list (string * json));
  rq_headers : option (list (string * string));
  rq_timeout : option Z
}.

(** What the program reads from a response: [status_code], the value of
    [headers.get("Retry-After")], [text], and the outcome of [json()]
    ([None] when the body is not JSON). *)
Record response : Type := mkResponse {
  status_code : Z;
  retry_after : option string;
  text : string;
  json_body : option json
}.

(** A session is scripted: its [i]-th call of [get] (counting from 0) with
    request [rq] returns a response or raises. *)
Definition session : Type := nat -> request -> result response.

(** A [dict] with the five keys of a result entry, in the order they are
    written.  The values are whatever the hit carried. *)
Record entry : Type := mkEntry {
  title : json;
  authors : json;
  venue : json;
  year : json;
  url : json
}.

Inductive level : Type := INFO | WARNING | ERROR.

(** The messages of the [logging] calls, one constructor per call site,
    carrying the interpolated values. *)
Inductive log_msg : Type :=
| MsgDownloaded (filename : string)
| MsgDownloadError (title : json) (e : exn)
| MsgRateLimited (keyword venue year : string) (retry_after : Z)
| MsgNoResults (keyword venue year : string)
| MsgCount (keyword venue year : string) (count : Z)
| MsgFetchError (keyword venue year : string) (e : exn)
| MsgMaxRetries (keyword venue year : string)
| MsgRetrying (retries max_retries backoff : Z)
| MsgMissingKey (keyword venue year : string) (e : exn)
| MsgFetching (keyword year venue : string).

Inductive event : Type :=
| EvGet (rq : request)
| EvSleep (secs : Z)
| EvLog (lv : level) (msg : log_msg)
| EvWrite (path contents : string).

(** A computation starts with the number of [session.get] calls made so
    far and yields a value or an exception, the events it performed in
    order, and the new number of calls. *)
Definition M (A : Type) : Type := nat -> result A * list event * nat.

Definition ret {A : Type} (a : A) : M A := fun n => (Ok a, [], n).

Definition raise {A : Type} (e : exn) : M A := fun n => (Raise e, [], n).

Definition bind {A B : Type} (m : M A) (f : A -> M B) : M B := fun n =>
  match m n with
  | (Ok a, evs, n1) =>
      match f a n1 with
      | (r, evs2, n2) => (r, evs ++ evs2, n2)
      end
  | (Raise e, evs, n1) => (Raise e, evs, n1)
  end.

Notation "x <- m ;; k" := (bind m (fun x => k))
  (at level 61, m at next level, right associativity).
Notation "m ;;; k" := (bind m (fun _ => k))
  (at level 61, right associativity).

Definition lift {A : Type} (r : result A) : M A := fun n => (r, [], n).

Definition emit (ev : event) : M unit := fun n => (Ok tt, [ev], n).

(** [try: m except ...: h]: [h e] is the handler of the first [except]
    clause that matches [e], if any. *)
Definition try_catch {A : Type} (m : M A) (h : exn -> option (M A)) : M A := fun n =>
  match m n with
  | (Raise e, evs, n1) =>
      match h e with
      | Some k =>
          match k n1 with
          | (r, evs2, n2) => (r, evs ++ evs2, n2)
          end
      | None => (Raise e, evs, n1)
      end
  | done => done
  end.

Fixpoint for_each {A S : Type} (l : list A) (body : A -> S -> M S) (s : S) : M S :=
  match l with
  | [] => ret s
  | x :: rest => s' <- body x s ;; for_each rest body s'
  end.

Definition log (lv : level) (msg : log_msg) : M unit := emit (EvLog lv msg).

(** [time.sleep(secs)] for an [int]: a negative length is a [ValueError],
    and a length that does not fit in 64 bits of nanoseconds, more than
    (2^63 - 1) / 10^9 whole seconds, is an [OverflowError].  (In the last
    seconds below that bound, as many as the machine has been up, the
    operating system may still refuse the deadline; that band is not
    represented.) *)
Definition max_sleep : Z := 9223372036.

Definition sleep (secs : Z) : M unit :=
  if secs <? 0 then raise ValueError
  else if max_sleep <? secs then raise OverflowError
  else emit (EvSleep secs).

Definition session_get (sess : session) (rq : request) : M response := fun n =>
  (sess n rq, [EvGet rq], S n).

(** The file system is scripted too: opening a path for writing and writing
    the text, when [i] calls of [session.get] have been made, succeeds or
    raises ([OSError] for a name that is too long, a missing folder or a
    full disk, [ValueError] for a NUL in the name, ...). *)
Definition filesystem : Type := nat -> string -> result unit.

(** [with path.open("w") as file: file.write(contents)]. *)
Definition write_file (files : filesystem) (path contents : string) : M unit := fun n =>
  match files n path with
  | Ok _ => (Ok tt, [EvWrite path contents], n)
  | Raise e => (Raise e, [], n)
  end.

(** [response.raise_for_status()]: statuses 400..599 raise [HTTPError]. *)
Definition raise_for_status (r : response) : M unit :=
  if (400 <=? status_code r) && (status_code r <? 600)
  then raise (RequestException (HTTPError (status_code r)))
  else ret tt.

(** [response.json()]: a body that does not parse raises
    [requests.exceptions.JSONDecodeError], a [RequestException]. *)
Definition response_json (r : response) : M json :=
  match json_body r with
  | Some data => ret data
  | None => raise (RequestException JSONDecodeError)
  end.

(** [requests.Session.get(self, url, **kwargs)]: the method takes the URL as
    its only positional argument, so a call with more raises [TypeError]
    before anything is sent; otherwise the network decides. *)
Definition Session (network : session) : session := fun i rq =>
  match rq_args rq with
  | [] => network i rq
  | _ :: _ => Raise TypeError
  end.

(** The retry adapter mounted on the session works below [get]; what it
    leaves visible is folded into [network]. *)
Definition create_session_with_retries (network : session) : session :=
  Session network.

(** ** [sanitize_filename] *)

(** The characters of the class in the pattern, by code: backslash, slash,
    star, question mark, colon, double quote, less, greater, bar. *)
Definition invalid_in_filename (c : ascii) : bool :=
  existsb (Nat.eqb (nat_of_ascii c)) [92; 47; 42; 63; 58; 34; 60; 62; 124]%nat.

Fixpoint replace_invalid (s : string) : string :=
  match s with
  | EmptyString => EmptyString
  | String c rest =>
      String (if invalid_in_filename c then "_"%char else c) (replace_invalid rest)
  end.

(** [re.sub] wants a string. *)
Definition sanitize_filename (filename : json) : result string :=
  match filename with
  | JStr s => Ok (replace_invalid s)
  | _ => Raise TypeError
  end.

(** ** [download_bibtex] *)

Definition artifact_request (url : json) (headers : list (string * string)) : request :=
  mkRequest url [headers] None None (Some 10).

Definition download_bibtex (files : filesystem) (url title : json) (bib_folder : string)
    (sess : session) (headers : list (string * string)) : M unit :=
  try_catch
    (response <- session_get sess (artifact_request url headers) ;;
     raise_for_status response ;;;
     safe_title <- lift (sanitize_filename title) ;;
     let filename := bib_folder +++ "/" +++ safe_title +++ ".bib" in
     write_file files filename (text response) ;;;
     log INFO (MsgDownloaded filename))
    (fun e =>
       match e with
       | RequestException _ => Some (log ERROR (MsgDownloadError title e))
       | _ => None
       end).

(** ** [get_dblp_results] *)

Definition base_url : string := "https://dblp.org/search/publ/api".
Definition max_retries : Z := 5.
Definition initial_backoff : Z := 5.

(** Lines 64-69: the parts of the query, then the string sent as [q]. *)
Definition query_parts (keyword venue year : string) : list string :=
  let query_parts := [keyword] in
  let query_parts :=
    if negb (String.eqb (lower venue) "all")
    then query_parts ++ ["streamid:conf/" +++ lower venue +++ ":"]
    else query_parts in
  let query_parts :=
    if negb (String.eqb (lower year) "all")
    then query_parts ++ ["year:" +++ year +++ ":"]
    else query_parts in
  query_parts.

Definition query_string (keyword venue year : string) : string :=
  String.concat " " (query_parts keyword venue year).

Definition search_request (keyword venue year : string)
    (headers : list (string * string)) : request :=
  mkRequest (JStr base_url) []
    (Some [("q", JStr (query_string keyword venue year));
           ("format", JStr "json");
           ("h", JNum 100)])
    (Some headers) (Some 10).

(** Lines 103-118: one hit becomes one entry. *)
Definition normalize (hit : json) : result entry :=
  rbind (py_get hit "info" (JObj [])) (fun info =>
  rbind (py_get info "authors" (JObj [])) (fun authors_obj =>
  rbind (py_get authors_obj "author" (JArr [])) (fun authors_info =>
  rbind
    match authors_info with
    | JArr l =>
        rbind (rmap (fun author => py_get author "text" (JStr "")) l) (fun texts =>
        rbind (py_join ", " texts) (fun s => Ok (JStr s)))
    | JObj _ => py_get authors_info "text" (JStr "")
    | _ => Ok (JStr "")
    end (fun authors =>
  rbind (py_get info "title" (JStr "")) (fun title =>
  rbind (py_get info "venue" (JStr "")) (fun venue =>
  rbind (py_get info "year" (JStr "")) (fun year =>
  rbind (py_get info "url" (JStr "")) (fun url =>
  Ok (mkEntry title authors venue year url))))))))).

(** The local variables the loop updates. *)
Record locals : Type := mkLocals {
  retries : Z;
  backoff : Z;
  results : list entry
}.

(** How an iteration of the [while] loop ends: [Next] goes back to the
    loop test ([continue], or the end of the body), [Break] leaves. *)
Inductive control : Type :=
| Next (st : locals)
| Break (st : locals).

Section Fetch.

Variables (keyword venue year : string).
Variable sess : session.
Variable headers : list (string * string).
Variable sleep_time : Z.

(** Lines 88-123, after the status checks. *)
Definition read_hits (response : response) (st : locals) : M control :=
  data <- response_json response ;;
  result_ <- lift (py_get data "result" (JObj [])) ;;
  hits_ <- lift (py_get result_ "hits" (JObj [])) ;;
  total_hits <- lift (py_get hits_ "@total" (JStr "0")) ;;
  if py_eq_str total_hits "0" then
    log INFO (MsgNoResults keyword venue year) ;;;
    ret (Break st)
  else
    count <- lift (py_int total_hits) ;;
    r <- lift (py_getitem data "result") ;;
    h <- lift (py_getitem r "hits") ;;
    hits <- lift (py_get h "hit" (JArr [])) ;;
    let hits := match hits with JObj _ => JArr [hits] | _ => hits end in
    items <- lift (py_iter hits) ;;
    entries <- lift (rmap normalize items) ;;
    log INFO (MsgCount keyword venue year count) ;;;
    sleep sleep_time ;;;
    ret (Break (mkLocals (retries st) (backoff st) (results st ++ entries))).

(** Lines 64-123: the body of the [try]. *)
Definition try_body (st : locals) : M control :=
  response <- session_get sess (search_request keyword venue year headers) ;;
  if status_code response =? 429 then
    retry_after <- lift (py_int match retry_after response with
                                | Some s => JStr s
                                | None => JNum (backoff st)
                                end) ;;
    log WARNING (MsgRateLimited keyword venue year retry_after) ;;;
    sleep retry_after ;;;
    ret (Next (mkLocals (retries st + 1) (backoff st * 2) (results st)))
  else
    raise_for_status response ;;;
    read_hits response st.

(** Lines 124-135: the two [except] clauses.  No statement of the body
    that can raise one of the two caught classes comes after an update of
    a local variable, so the handlers see the locals of the start of the
    iteration. *)
Definition handlers (st : locals) (e : exn) : option (M control) :=
  match e with
  | RequestException _ =>
      Some (log ERROR (MsgFetchError keyword venue year e) ;;;
            let retries := retries st + 1 in
            if max_retries <? retries then
              log ERROR (MsgMaxRetries keyword venue year) ;;;
              ret (Break (mkLocals retries (backoff st) (results st)))
            else
              log INFO (MsgRetrying retries max_retries (backoff st)) ;;;
              sleep (backoff st) ;;;
              ret (Next (mkLocals retries (backoff st * 2) (results st))))
  | KeyError _ =>
      Some (log ERROR (MsgMissingKey keyword venue year e) ;;;
            ret (Break st))
  | _ => None
  end.

Definition attempt (st : locals) : M control :=
  try_catch (try_body st) (handlers st).

(** [while retries <= max_retries: ...], with a bound on the number of
    iterations; [while_fuel_enough] below shows the bound is never hit. *)
Fixpoint while_loop (fuel : nat) (st : locals) : M locals :=
  match fuel with
  | O => ret st
  | S fuel' =>
      if retries st <=? max_retries then
        c <- attempt st ;;
        match c with
        | Next st' => while_loop fuel' st'
        | Break st' => ret st'
        end
      else ret st
  end.

Definition fetch_loop : M locals :=
  while_loop (S (Z.to_nat max_retries)) (mkLocals 0 initial_backoff []).

Definition get_dblp_results : M (list entry) :=
  st <- fetch_loop ;; ret (results st).

End Fetch.

(** ** The loops of [main] (lines 193-203) *)

(** [all_results[keyword] = value]: a new key goes last, an old key keeps
    its place. *)
Fixpoint dict_set {V : Type} (k : string) (v : V) (d : list (string * V)) : list (string * V) :=
  match d with
  | [] => [(k, v)]
  | (k', v') :: rest =>
      if String.eqb k k' then (k', v) :: rest else (k', v') :: dict_set k v rest
  end.

Section Orchestrator.

Variable files : filesystem.
Variable sess : session.
Variable headers : list (string * string).
Variable save_bibtex : bool.
Variable bib_dir : string.

Definition query_step (keyword year venue : string) (keyword_results : list entry)
    : M (list entry) :=
  log INFO (MsgFetching keyword year venue) ;;;
  results <- get_dblp_results keyword venue year sess headers 5 ;;
  let keyword_results := keyword_results ++ results in
  (if save_bibtex then
     for_each results
       (fun r _ => download_bibtex files (url r) (title r) bib_dir sess headers) tt
   else ret tt) ;;;
  ret keyword_results.

Definition run (keywords venues years : list string) : M (list (string * list entry)) :=
  for_each keywords
    (fun keyword all_results =>
       keyword_results <-
         for_each years
           (fun year keyword_results =>
              for_each venues
                (fun venue keyword_results => query_step keyword year venue keyword_results)
                keyword_results)
           [] ;;
       ret (dict_set keyword keyword_results all_results))
    [].

End Orchestrator.

Definition default_headers : list (string * string) :=
  [("User-Agent", "DBLPCrawler/1.0 (contact@example.com)")].

(** [main], from the parsed arguments and the behaviour of the network, up
    to the map it hands to the spreadsheet writer. *)
Definition main (files : filesystem) (network : session) (save_bibtex : bool)
    (outdir : string) (keywords venues years : list string)
    : M (list (string * list entry)) :=
  run files (create_session_with_retries network) default_headers save_bibtex
      (outdir +++ "/bibs") keywords venues years.

(** ** Observations on a run *)

Definition outcome {A : Type} (x : result A * list event * nat) : result A := fst (fst x).
Definition events {A : Type} (x : result A * list event * nat) : list event := snd (fst x).
Definition calls {A : Type} (x : result A * list event * nat) : nat := snd x.

(** The number of calls of [session.get], the lengths slept, and the lengths
    slept before a retry (a sleep that is followed by another call). *)
Fixpoint attempts (evs : list event) : nat :=
  match evs with
  | [] => O
  | EvGet _ :: rest => S (attempts rest)
  | _ :: rest => attempts rest
  end.

Fixpoint sleeps (evs : list event) : list Z :=
  match evs with
  | [] => []
  | EvSleep d :: rest => d :: sleeps rest
  | _ :: rest => sleeps rest
  end.

Fixpoint retry_delays (evs : list event) : list Z :=
  match evs with
  | [] => []
  | EvSleep d :: rest =>
      if (0 <? attempts rest)%nat then d :: retry_delays rest else retry_delays rest
  | _ :: rest => retry_delays rest
  end.

(** ** The shape of a hit the normalisation accepts *)

Definition author_ok (a : json) : bool :=
  match a with
  | JObj kv =>
      match lookup "text" kv with
      | None | Some (JStr _) => true
      | Some _ => false
      end
  | _ => false
  end.

Definition author_name (a : json) : string :=
  match a with
  | JObj kv =>
      match lookup "text" kv with
      | Some (JStr s) => s
      | _ => ""
      end
  | _ => ""
  end.

(** A hit is an object; its [info] and the [authors] of that, when present,
    are objects; when [author] is a list, its elements are objects whose
    [text], when present, is a string. *)
Definition well_shaped (hit : json) : bool :=
  match hit with
  | JObj hf =>
      match lookup "info" hf with
      | None => true
      | Some (JObj info) =>
          match lookup "authors" info with
          | None => true
          | Some (JObj au) =>
              match lookup "author" au with
              | Some (JArr l) => forallb author_ok l
              | _ => true
              end
          | Some _ => false
          end
      | Some _ => false
      end
  | _ => false
  end.

(** The [info] object of a hit, empty when there is none. *)
Definition info_of (hit : json) : list (string * json) :=
  match hit with
  | JObj hf =>
      match lookup "info" hf with
      | Some (JObj info) => info
      | _ => []
      end
  | _ => []
  end.

Definition hit_with (info : list (string * json)) : json := JObj [("info", JObj info)].

Definition with_authors (author : json) (rest : list (string * json)) : json :=
  hit_with (("authors", JObj [("author", author)]) :: rest).

Definition named (name : string) : json := JObj [("text", JStr name)].

(** ** The clauses of a query *)

Definition venue_clause (venue : string) : string := "streamid:conf/" +++ lower venue +++ ":".
Definition year_clause (year : string) : string := "year:" +++ year +++ ":".

(** ** Sample hits *)

(** A hit in the older format of the API, with authors as plain strings. *)
Definition plain_authors_hit : json :=
  with_authors (JArr [JStr "A"; JStr "B"]) [("title", JStr "T")].

Definition sample_hit : json :=
  with_authors (JArr [named "A"; named "B"]) [("title", JStr "T"); ("year", JStr "2024")].

(** A hit as the API sends it, with keys besides the ones that are read. *)
Definition api_author (pid name : string) : json :=
  JObj [("@pid", JStr pid); ("text", JStr name)].

Definition api_hit : json :=
  JObj [("@score", JStr "3"); ("@id", JStr "4242");
        ("info",
         JObj [("authors",
                JObj [("author", JArr [api_author "1/1" "A"; api_author "2/2" "B";
                                       api_author "3/3" "C"])]);
               ("title", JStr "T"); ("venue", JStr "ICLR"); ("year", JStr "2024");
               ("type", JStr "Conference and Workshop Papers");
               ("url", JStr "https://dblp.org/rec/conf/iclr/X24")]);
        ("url", JStr "URL#4242")].

(** The value of [authors_info] (line 104) in a hit of the accepted shape;
    [None] when [authors], or [author] inside it, is absent. *)
Definition authors_info_of (hit : json) : option json :=
  match lookup "authors" (info_of hit) with
  | Some (JObj au) => lookup "author" au
  | _ => None
  end.

(** ** What the first [except] clause does *)

(** The outcome and the events of the handler of [RequestException], from
    the locals at the start of the iteration. *)
Definition on_request_exception (keyword venue year : string) (st : locals)
    (e : request_error) : result control * list event :=
  let failed := EvLog ERROR (MsgFetchError keyword venue year (RequestException e)) in
  if max_retries <? retries st + 1 then
    (Ok (Break (mkLocals (retries st + 1) (backoff st) (results st))),
     [failed; EvLog ERROR (MsgMaxRetries keyword venue year)])
  else if backoff st <? 0 then
    (Raise ValueError,
     [failed; EvLog INFO (MsgRetrying (retries st + 1) max_retries (backoff st))])
  else if max_sleep <? backoff st then
    (Raise OverflowError,
     [failed; EvLog INFO (MsgRetrying (retries st + 1) max_retries (backoff st))])
  else
    (Ok (Next (mkLocals (retries st + 1) (backoff st * 2) (results st))),
     [failed; EvLog INFO (MsgRetrying (retries st + 1) max_retries (backoff st));
      EvSleep (backoff st)]).

(** The value [int(response.headers.get("Retry-After", backoff))] reads. *)
Definition retry_after_value (r : response) (st : locals) : json :=
  match retry_after r with
  | Some s => JStr s
  | None => JNum (backoff st)
  end.

(** ** Reading a response body *)

(** Line 90: [data.get("result", {}).get("hits", {}).get("@total", "0")]. *)
Definition total_hits_of (data : json) : result json :=
  rbind (py_get data "result" (JObj [])) (fun r =>
  rbind (py_get r "hits" (JObj [])) (fun h =>
  py_get h "@total" (JStr "0"))).


(** A body that lacks [result], or [hits] in it, or [@total] in that. *)
Definition lacks_total (data : json) : Prop :=
  exists df,
    data = JObj df /\
    (lookup "result" df = None \/
     exists rf, lookup "result" df = Some (JObj rf) /\
       (lookup "hits" rf = None \/
        exists hf, lookup "hits" rf = Some (JObj hf) /\ lookup "@total" hf = None)).

(** The end of [read_hits] once the entries are built (lines 121-123): the
    count is logged, then comes the pause of [sleep_time]; [pre] holds the
    events before. *)
Definition pause_and_leave (keyword venue year : string) (sleep_time : Z) (st : locals)
    (count : Z) (entries : list entry) (pre : list event) (n : nat)
    : result control * list event * nat :=
  if sleep_time <? 0 then
    (Raise ValueError, pre ++ [EvLog INFO (MsgCount keyword venue year count)], n)
  else if max_sleep <? sleep_time then
    (Raise OverflowError, pre ++ [EvLog INFO (MsgCount keyword venue year count)], n)
  else
    (Ok (Break (mkLocals (retries st) (backoff st) (results st ++ entries))),
     pre ++ [EvLog INFO (MsgCount keyword venue year count); EvSleep sleep_time], n).

(** A response that passes the status checks of lines 79 and 87. *)
Definition passes_status (r : response) : bool :=
  negb (status_code r =? 429) && negb ((400 <=? status_code r) && (status_code r <? 600)).

(** ** How an iteration of the retry loop can end *)

(** The Retry-After value of an answer, when it is a 429 that carries one. *)
Definition hint_of (o : result response) : option string :=
  match o with
  | Ok r => if status_code r =? 429 then retry_after r else None
  | Raise _ => None
  end.

(** The pause before the retry that follows an answer: the hint of a 429
    that carries one, read as a number of seconds (line 80), and the
    current backoff otherwise (lines 80 and 131). *)
Definition retry_delay (o : result response) (backoff : Z) : option Z :=
  match hint_of o with
  | Some s => int_of_string s
  | None => Some backoff
  end.

(** Either it goes round again, after sleeping [d] as its last act, with one
    more retry and a doubled backoff ([d] is the backoff, unless the [n]-th
    response was a 429 that carried a Retry-After value), or it ends the loop
    without a further request. *)
Definition goes_round (sess : session) (rq : request) (st : locals) (n : nat)
    (c : result control) (evs : list event) : Prop :=
  exists d logs,
    c = Ok (Next (mkLocals (retries st + 1) (backoff st * 2) (results st))) /\
    evs = logs ++ [EvSleep d] /\ attempts logs = O /\ sleeps logs = [] /\
    retry_delay (sess n rq) (backoff st) = Some d.

Definition ends_loop (c : result control) (evs : list event) : Prop :=
  attempts evs = O /\ ((exists st', c = Ok (Break st')) \/ (exists e, c = Raise e)).

(** ** Scripted sessions used as examples *)

Definition always_timeout : session := fun _ _ => Raise (RequestException Timeout).

Definition ok_response (data : json) : response := mkResponse 200 None "" (Some data).

Definition rate_limited (hint : option string) : response := mkResponse 429 hint "" None.

Definition search_body (total : json) (hits : list json) : json :=
  JObj [("result", JObj [("hits", JObj [("@total", total); ("hit", JArr hits)])])].

Definition sample_entry : entry :=
  mkEntry (JStr "T") (JStr "A, B") (JStr "") (JStr "2024") (JStr "").

(** A 429 with "Retry-After: 60", then a connection error, then no results. *)
Definition hinted_session : session := fun i _ =>
  match i with
  | O => Ok (rate_limited (Some "60"))
  | S O => Raise (RequestException ConnectionError)
  | _ => Ok (ok_response (search_body (JStr "0") []))
  end.

(** A 429 with "Retry-After: 1", then two connection errors, then no
    results. *)
Definition short_hint_session : session := fun i _ =>
  match i with
  | O => Ok (rate_limited (Some "1"))
  | S O | S (S O) => Raise (RequestException ConnectionError)
  | _ => Ok (ok_response (search_body (JStr "0") []))
  end.

(** A 429 without the header, then a timeout, then no results. *)
Definition unhinted_session : session := fun i _ =>
  match i with
  | O => Ok (rate_limited None)
  | S O => Raise (RequestException Timeout)
  | _ => Ok (ok_response (search_body (JStr "0") []))
  end.


(** A 429 whose Retry-After is an HTTP date, then one hit. *)
Definition dated_hint_session : session := fun i _ =>
  match i with
  | O => Ok (rate_limited (Some "Wed, 21 Oct 2015 07:28:00 GMT"))
  | _ => Ok (ok_response (search_body (JStr "1") [sample_hit]))
  end.

(** A response with two hits, the second with its authors as plain
    strings. *)
Definition plain_authors_session : session := fun _ _ =>
  Ok (ok_response (search_body (JStr "2") [sample_hit; plain_authors_hit])).

Definition zero_total_session : session := fun _ _ =>
  Ok (ok_response (search_body (JStr "0") [])).

Definition empty_body_session : session := fun _ _ => Ok (ok_response (JObj [])).

(** ** The aggregation, as the specification words it *)

(** The results of the queries of a list, concatenated in the order of the
    list. *)
Fixpoint collect {A B : Type} (f : A -> M (list B)) (l : list A) : M (list B) :=
  match l with
  | [] => ret []
  | x :: rest => r <- f x ;; rs <- collect f rest ;; ret (r ++ rs)
  end.

Section Aggregation.

Variable files : filesystem.
Variable sess : session.
Variable headers : list (string * string).
Variable save_bibtex : bool.
Variable bib_dir : string.

(** One query: the fetcher's results, and the downloads when enabled. *)
Definition fetch_query (keyword : string) (yv : string * string) : M (list entry) :=
  log INFO (MsgFetching keyword (fst yv) (snd yv)) ;;;
  results <- get_dblp_results keyword (snd yv) (fst yv) sess headers 5 ;;
  (if save_bibtex then
     for_each results
       (fun r _ => download_bibtex files (url r) (title r) bib_dir sess headers) tt
   else ret tt) ;;;
  ret results.

(** Each keyword is mapped to the concatenation of the results of its
    queries, for each year and, within a year, for each venue. *)
Definition run_spec (keywords venues years : list string) : M (list (string * list entry)) :=
  for_each keywords
    (fun keyword all_results =>
       rs <- collect (fetch_query keyword) (list_prod years venues) ;;
       ret (dict_set keyword rs all_results))
    [].

End Aggregation.

(** The network of the end-to-end scenario: every search returns one hit. *)
Definition one_hit_network : session := fun _ _ =>
  Ok (ok_response (search_body (JStr "1") [sample_hit])).

(** A network whose answer carries a total that is not a number. *)
Definition bad_total_network : session := fun _ _ =>
  Ok (ok_response (search_body (JStr "n/a") [sample_hit])).

(** A network that answers 429 with an HTTP date in Retry-After. *)
Definition dated_retry_network : session := fun _ _ =>
  Ok (rate_limited (Some "Wed, 21 Oct 2015 07:28:00 GMT")).

(** A network that answers every search with one hit whose title is the
    query string it was sent. *)
Definition echo_network : session := fun _ rq =>
  let q := match rq_params rq with
           | Some params => match lookup "q" params with Some v => v | None => JNull end
           | None => JNull
           end in
  Ok (ok_response (search_body (JStr "1") [hit_with [("title", q)]])).


(** ** Kinds of events *)

Fixpoint writes (evs : list event) : list (string * string) :=
  match evs with
  | [] => []
  | EvWrite p c :: rest => (p, c) :: writes rest
  | _ :: rest => writes rest
  end.

(** The messages of the [logging] calls of the fetcher, but for the one of
    the [KeyError] clause. *)
Definition fetcher_log (msg : log_msg) : bool :=
  match msg with
  | MsgRateLimited _ _ _ _ | MsgNoResults _ _ _ | MsgCount _ _ _ _
  | MsgFetchError _ _ _ _ | MsgMaxRetries _ _ _ | MsgRetrying _ _ _ => true
  | _ => false
  end.

Definition missing_key_event (ev : event) : bool :=
  match ev with
  | EvLog _ (MsgMissingKey _ _ _ _) => true
  | _ => false
  end.

Definition fetching_event (ev : event) : bool :=
  match ev with
  | EvLog _ (MsgFetching _ _ _) => true
  | _ => false
  end.

(** A computation all of whose events, from any start, satisfy [P]. *)
Definition emits {A : Type} (P : event -> Prop) (m : M A) : Prop :=
  forall n, Forall P (events (m n)).

(** ** Failures that are retried *)

(** The [RequestException] an attempt ends with, if any: one raised by
    [session.get], an error status other than 429, or a body that is not
    JSON. *)
Definition retryable_failure (o : result response) : option request_error :=
  match o with
  | Raise (RequestException e) => Some e
  | Raise _ => None
  | Ok r =>
      if status_code r =? 429 then None
      else if (400 <=? status_code r) && (status_code r <? 600)
      then Some (HTTPError (status_code r))
      else match json_body r with
           | None => Some JSONDecodeError
           | Some _ => None
           end
  end.

(** The items the loop of line 102 runs over, from the value of [hit]. *)
Definition hit_items (hit : option json) : result (list json) :=
  match hit with
  | None => Ok []
  | Some (JObj o) => Ok [JObj o]
  | Some v => py_iter v
  end.

(** A body whose [result.hits] is an object that holds [@total]. *)
Definition has_total (data : json) (total : json) (hit : option json) : Prop :=
  exists df rf hf,
    data = JObj df /\
    lookup "result" df = Some (JObj rf) /\
    lookup "hits" rf = Some (JObj hf) /\
    lookup "@total" hf = Some total /\
    lookup "hit" hf = hit.

Definition always_limited : session := fun _ _ => Ok (rate_limited None).

Definition always_unavailable : session := fun _ _ => Ok (mkResponse 503 None "" None).


(** ** Failures of an artifact request *)

(** The [RequestException] a download ends with, if any: one raised by
    [session.get], or an error status (429 included). *)
Definition download_failure (o : result response) : option request_error :=
  match o with
  | Raise (RequestException e) => Some e
  | Raise _ => None
  | Ok r =>
      if (400 <=? status_code r) && (status_code r <? 600)
      then Some (HTTPError (status_code r))
      else None
  end.

(** A file system on which every write succeeds, and one without the
    folder of the artifacts. *)
Definition willing_files : filesystem := fun _ _ => Ok tt.


(** A session object whose [get] takes any arguments and returns a fixed
    response. *)
Definition fixed_session (r : response) : session := fun _ _ => Ok r.

(** The number of queries announced in a run. *)
Definition queries (evs : list event) : nat := List.length (filter fetching_event evs).

(** A computation that announces at most [c] queries, and exactly [c] when
    it returns. *)
Definition counted {A : Type} (c : nat) (m : M A) : Prop :=
  forall n,
    (queries (events (m n)) <= c)%nat /\
    (forall a, outcome (m n) = Ok a -> queries (events (m n)) = c).

(** ** [save_results_to_excel_file] *)

(** What the spreadsheet library is asked to do, and the three [logging]
    calls of the function. *)
Inductive excel_event : Type :=
| XlOpen (filename : string)
| XlSheet (sheet_name : string) (rows : list entry)
| XlClose
| XlNoResults (sheet_name : string)
| XlSaved (filename : string)
| XlSaveError (error : string).

(** The library is scripted: opening the writer, the [i]-th sheet (building
    its frame and the call of [to_excel]) and closing the writer each
    succeed or raise an exception, given by its text.  The 31 characters of
    a sheet name are counted as the bytes of the string. *)
Record excel : Type := mkExcel {
  xl_open : string -> option string;
  xl_to_excel : nat -> string -> list entry -> option string;
  xl_close : option string
}.

(** Lines 149-156: the loop over the items of the map; [i] counts the
    sheets written so far.  It yields the exception that ended it, if any,
    and the events in order. *)
Fixpoint write_sheets (xl : excel) (i : nat) (items : list (string * list entry))
    : option string * list excel_event :=
  match items with
  | [] => (None, [])
  | (sheet_name, results) :: rest =>
      match results with
      | [] =>
          let '(r, evs) := write_sheets xl i rest in
          (r, XlNoResults sheet_name :: evs)
      | _ :: _ =>
          let safe_sheet_name := substring 0 31 (replace_invalid sheet_name) in
          match xl_to_excel xl i safe_sheet_name results with
          | Some e => (Some e, [XlSheet safe_sheet_name results])
          | None =>
              let '(r, evs) := write_sheets xl (S i) rest in
              (r, XlSheet safe_sheet_name results :: evs)
          end
      end
  end.

(** The [with] statement closes the writer however its body ends; an
    exception of the close replaces the one of the body; [except Exception]
    logs whichever comes out. *)
Definition save_results_to_excel_file (xl : excel) (filename : string)
    (all_results : list (string * list entry)) : list excel_event :=
  match xl_open xl filename with
  | Some e => [XlOpen filename; XlSaveError e]
  | None =>
      let '(r, evs) := write_sheets xl 0 all_results in
      XlOpen filename :: evs ++ XlClose ::
        match xl_close xl, r with
        | Some e, _ => [XlSaveError e]
        | None, Some e => [XlSaveError e]
        | None, None => [XlSaved filename]
        end
  end.

Definition willing_excel : excel := mkExcel (fun _ => None) (fun _ _ _ => None) None.

(** ** Lemmas on the built-ins *)

Lemma join_authors_ok (l : list json) :
  forallb author_ok l = true ->
  rbind (rmap (fun author => py_get author "text" (JStr "")) l)
        (fun texts => rbind (py_join ", " texts) (fun s => Ok (JStr s)))
  = Ok (JStr (String.concat ", " (map author_name l))).
Proof.
  intros H.
  assert (E : rmap (fun author => py_get author "text" (JStr "")) l
              = Ok (map (fun a => JStr (author_name a)) l)).
  { induction l as [|a l IH]; [reflexivity|].
    simpl in H. apply andb_prop in H. destruct H as [Ha Hl].
    simpl. rewrite (IH Hl).
    destruct a; try discriminate. simpl in *.
    destruct (lookup "text" fields) as [[]|]; try discriminate; reflexivity. }
  rewrite E. simpl. unfold py_join.
  assert (S : strings_of (map (fun a => JStr (author_name a)) l) = Ok (map author_name l)).
  { clear. induction l as [|a l IH]; [reflexivity|]. simpl. rewrite IH. reflexivity. }
  rewrite S. reflexivity.
Qed.

Lemma join_authors_raises (l : list json) :
  forallb author_ok l = false ->
  exists e,
    rbind (rmap (fun author => py_get author "text" (JStr "")) l)
          (fun texts => rbind (py_join ", " texts) (fun s => Ok (JStr s)))
    = Raise e.
Proof.
  induction l as [|a l IH]; [discriminate|].
  intros H. simpl in H.
  destruct (author_ok a) eqn:Ha; simpl in H.
  - destruct (IH H) as [e He].
    destruct a; try discriminate. simpl in Ha |- *.
    destruct (rmap (fun author => py_get author "text" (JStr "")) l) as [texts|e'].
    + simpl in He |- *. unfold py_join in He |- *.
      destruct (lookup "text" fields) as [[]|]; try discriminate; simpl;
        (destruct (strings_of texts); simpl in *; [discriminate|eauto]).
    + simpl. eauto.
  - destruct a; simpl; eauto.
    simpl in Ha.
    destruct (rmap (fun author => py_get author "text" (JStr "")) l) as [texts|e'];
      simpl; eauto.
    unfold py_join.
    destruct (lookup "text" fields) as [[]|]; try discriminate; simpl; eauto.
Qed.

Lemma normalize_total_iff (hit : json) :
  (exists e, normalize hit = Ok e) <-> well_shaped hit = true.
Proof.
  unfold normalize, well_shaped.
  destruct hit; simpl; try (split; [intros [e He]; discriminate | discriminate]).
  destruct (lookup "info" fields) as [info|]; simpl.
  2: { split; eauto. }
  destruct info; simpl; try (split; [intros [e He]; discriminate | discriminate]).
  rename fields0 into info.
  destruct (lookup "authors" info) as [au|]; simpl.
  2: { split; eauto. }
  destruct au; simpl; try (split; [intros [e He]; discriminate | discriminate]).
  rename fields0 into au.
  destruct (lookup "author" au) as [a|]; simpl.
  2: { split; eauto. }
  destruct a; simpl; try (split; eauto; fail).
  destruct (forallb author_ok items) eqn:F.
  - rewrite (join_authors_ok _ F). simpl. split; eauto.
  - destruct (join_authors_raises _ F) as [e He]. rewrite He. simpl.
    split; [intros [e' He']; discriminate | discriminate].
Qed.

Lemma append_empty_r (s : string) : s +++ "" = s.
Proof. induction s as [|c s IH]; simpl; [reflexivity | now rewrite IH]. Qed.

(** ** The query string *)

(** C8: the parts after the keyword are the venue clause, present exactly
    when the lower-cased venue is not "all", then the year clause, present
    exactly when the lower-cased year is not "all"; the keyword always comes
    first, and the string sent is the parts joined by single spaces. *)
Theorem C8_query_clauses (keyword venue year : string) :
  hd_error (query_parts keyword venue year) = Some keyword /\
  tl (query_parts keyword venue year) =
    (if String.eqb (lower venue) "all" then [] else [venue_clause venue]) ++
    (if String.eqb (lower year) "all" then [] else [year_clause year]) /\
  (In (venue_clause venue) (tl (query_parts keyword venue year)) <-> lower venue <> "all") /\
  (In (year_clause year) (tl (query_parts keyword venue year)) <-> lower year <> "all") /\
  query_string keyword venue year =
    keyword +++ (if String.eqb (lower venue) "all" then "" else " " +++ venue_clause venue)
            +++ (if String.eqb (lower year) "all" then "" else " " +++ year_clause year).
Proof.
  unfold query_string, query_parts, venue_clause, year_clause.
  destruct (String.eqb_spec (lower venue) "all") as [Ev|Ev];
    destruct (String.eqb_spec (lower year) "all") as [Ey|Ey]; simpl;
    repeat split; try reflexivity; try tauto; try congruence;
    try (intros [H|[H|[]]]; try discriminate; congruence);
    try (intros [H|[]]; try discriminate; congruence);
    try (intros _; auto; fail).
  all: try now rewrite append_empty_r.
Qed.

(** ** The normalisation of a hit *)

Lemma normalize_fields (hit : json) (e : entry) :
  normalize hit = Ok e ->
  let field k := match lookup k (info_of hit) with Some v => v | None => JStr "" end in
  title e = field "title" /\ venue e = field "venue" /\
  year e = field "year" /\ url e = field "url".
Proof.
  unfold normalize, info_of. intros He.
  destruct hit as [| | | | |hf]; try discriminate. simpl in He.
  destruct (lookup "info" hf) as [[| | | | |info]|]; simpl in He; try discriminate;
    repeat match type of He with
           | rbind ?r _ = _ => destruct r eqn:?; simpl in He; try discriminate
           end;
    injection He as <-; simpl; auto.
Qed.

Lemma normalize_authors (hit : json) (e : entry) :
  well_shaped hit = true -> normalize hit = Ok e ->
  authors e =
    match authors_info_of hit with
    | Some (JArr l) => JStr (String.concat ", " (map author_name l))
    | Some (JObj kv) => match lookup "text" kv with Some v => v | None => JStr "" end
    | _ => JStr ""
    end.
Proof.
  unfold well_shaped, normalize, authors_info_of, info_of. intros W He.
  destruct hit as [| | | | |hf]; try discriminate. simpl in He.
  destruct (lookup "info" hf) as [[| | | | |info]|]; try discriminate; simpl in He.
  - destruct (lookup "authors" info) as [[| | | | |au]|]; try discriminate; simpl in He.
    + destruct (lookup "author" au) as [[| | | |l|kv]|]; simpl in He;
        try (injection He as <-; reflexivity).
      rewrite (join_authors_ok l W) in He. simpl in He. now injection He as <-.
    + now injection He as <-.
  - now injection He as <-.
Qed.

(** X22: for every hit of the accepted shape (an object whose [info] and
    the [authors] inside it, when present, are objects, and whose [author],
    when a list, holds objects with a string [text] or none) the
    normalisation returns an entry.  Its authors are the [text] of a single
    author object, the texts of a list of author objects joined by ", " in
    their order, and "" when there is no author or the value is of another
    type; its title, venue, year and url are the values of the hit, "" for
    a missing one.  Other keys of the hit are ignored. *)
Theorem X22_normalize_accepted_shape (hit : json) :
  well_shaped hit = true ->
  exists e,
    normalize hit = Ok e /\
    (forall kv, authors_info_of hit = Some (JObj kv) ->
       authors e = match lookup "text" kv with Some v => v | None => JStr "" end) /\
    (forall l, authors_info_of hit = Some (JArr l) ->
       authors e = JStr (String.concat ", " (map author_name l))) /\
    (forall v, authors_info_of hit = Some v ->
       match v with JArr _ | JObj _ => False | _ => True end -> authors e = JStr "") /\
    (authors_info_of hit = None -> authors e = JStr "") /\
    (let field k := match lookup k (info_of hit) with Some v => v | None => JStr "" end in
     title e = field "title" /\ venue e = field "venue" /\
     year e = field "year" /\ url e = field "url").
Proof.
  intros W.
  destruct (proj2 (normalize_total_iff hit) W) as [e He].
  exists e. split; [exact He|].
  pose proof (normalize_authors hit e W He) as A.
  split; [|split; [|split; [|split]]].
  - intros kv E. now rewrite E in A.
  - intros l E. now rewrite E in A.
  - intros v E N. rewrite E in A. destruct v; try exact A; contradiction.
  - intros E. now rewrite E in A.
  - exact (normalize_fields hit e He).
Qed.

Lemma X22_normalize_accepted_shape_witness :
  well_shaped api_hit = true /\
  exists e, normalize api_hit = Ok e /\ authors e = JStr "A, B, C" /\
            venue e = JStr "ICLR" /\ url e = JStr "https://dblp.org/rec/conf/iclr/X24".
Proof.
  split; [reflexivity|].
  destruct (X22_normalize_accepted_shape api_hit eq_refl)
    as (e & He & _ & Hl & _ & _ & _ & Fv & _ & Fu).
  exists e. split; [exact He|]. split; [|split].
  - exact (Hl _ eq_refl).
  - exact Fv.
  - exact Fu.
Defined.

(** ** One iteration of the retry loop *)

Lemma attempts_app (a b : list event) : attempts (a ++ b) = (attempts a + attempts b)%nat.
Proof.
  induction a as [|[] a IH]; simpl; auto.
Qed.

Lemma sleeps_app (a b : list event) : sleeps (a ++ b) = sleeps a ++ sleeps b.
Proof.
  induction a as [|[] a IH]; simpl; auto. now rewrite IH.
Qed.

Lemma retry_delays_no_attempt (evs : list event) :
  attempts evs = O -> retry_delays evs = [].
Proof.
  induction evs as [|[] evs IH]; simpl; auto; try discriminate.
  intros H. rewrite H. simpl. auto.
Qed.

Lemma retry_delays_app_quiet (a b : list event) :
  sleeps a = [] -> retry_delays (a ++ b) = retry_delays b.
Proof.
  induction a as [|[] a IH]; simpl; auto; discriminate.
Qed.

Section FetchFacts.

Variables (keyword venue year : string).
Variable sess : session.
Variable headers : list (string * string).
Variable sleep_time : Z.

Local Abbreviation rq := (search_request keyword venue year headers).

Lemma attempt_transport_error (st : locals) (n : nat) (e : request_error) :
  sess n rq = Raise (RequestException e) ->
  attempt keyword venue year sess headers sleep_time st n =
    (fst (on_request_exception keyword venue year st e),
     EvGet rq :: snd (on_request_exception keyword venue year st e), S n).
Proof.
  intros H.
  unfold attempt, try_catch, try_body, bind, session_get.
  fold rq. rewrite H.
  unfold on_request_exception, handlers, bind, log, emit, sleep, ret, raise.
  destruct (max_retries <? retries st + 1); [reflexivity|].
  destruct (backoff st <? 0); [reflexivity|].
  destruct (max_sleep <? backoff st); reflexivity.
Qed.

Lemma attempt_rate_limited (st : locals) (n : nat) (r : response) :
  sess n rq = Ok r -> status_code r = 429 ->
  attempt keyword venue year sess headers sleep_time st n =
    match py_int (retry_after_value r st) with
    | Raise e => (Raise e, [EvGet rq], S n)
    | Ok d =>
        if d <? 0 then
          (Raise ValueError,
           [EvGet rq; EvLog WARNING (MsgRateLimited keyword venue year d)], S n)
        else if max_sleep <? d then
          (Raise OverflowError,
           [EvGet rq; EvLog WARNING (MsgRateLimited keyword venue year d)], S n)
        else
          (Ok (Next (mkLocals (retries st + 1) (backoff st * 2) (results st))),
           [EvGet rq; EvLog WARNING (MsgRateLimited keyword venue year d); EvSleep d],
           S n)
    end.
Proof.
  intros H S429.
  unfold attempt, try_catch, try_body, bind, session_get.
  fold rq. rewrite H, S429. simpl. fold (retry_after_value r st).
  unfold lift, log, emit, sleep, ret, raise.
  destruct (py_int (retry_after_value r st)) as [d|e] eqn:E.
  - simpl. destruct (d <? 0); [reflexivity|]. destruct (max_sleep <? d); reflexivity.
  - destruct (retry_after_value r st) as [| | |s| |]; simpl in E;
      try (destruct (int_of_string s)); inversion E; reflexivity.
Qed.

Lemma attempt_http_error (st : locals) (n : nat) (r : response) :
  sess n rq = Ok r -> status_code r <> 429 ->
  (400 <=? status_code r) && (status_code r <? 600) = true ->
  attempt keyword venue year sess headers sleep_time st n =
    (fst (on_request_exception keyword venue year st (HTTPError (status_code r))),
     EvGet rq :: snd (on_request_exception keyword venue year st (HTTPError (status_code r))),
     S n).
Proof.
  intros H N429 E.
  unfold attempt, try_catch, try_body, bind, session_get.
  fold rq. rewrite H. apply Z.eqb_neq in N429. rewrite N429.
  unfold raise_for_status. rewrite E.
  unfold on_request_exception, handlers, bind, log, emit, sleep, ret, raise.
  destruct (max_retries <? retries st + 1); [reflexivity|].
  destruct (backoff st <? 0); [reflexivity|].
  destruct (max_sleep <? backoff st); reflexivity.
Qed.

Lemma attempt_passes_status (st : locals) (n : nat) (r : response) :
  sess n rq = Ok r -> passes_status r = true ->
  attempt keyword venue year sess headers sleep_time st n =
    match try_catch (read_hits keyword venue year sleep_time r st)
                    (handlers keyword venue year st) (S n) with
    | (c, evs, n') => (c, EvGet rq :: evs, n')
    end.
Proof.
  intros H P. unfold passes_status in P.
  apply andb_prop in P. destruct P as [P1 P2].
  apply negb_true_iff in P1, P2.
  unfold attempt, try_catch, try_body, bind, session_get.
  fold rq. rewrite H, P1. unfold raise_for_status. rewrite P2.
  unfold ret.
  destruct (read_hits keyword venue year sleep_time r st (S n)) as [[[c|e] evs] n'].
  - reflexivity.
  - simpl. destruct (handlers keyword venue year st e) as [k|]; [|reflexivity].
    destruct (k n') as [[c' evs'] n'']. reflexivity.
Qed.

Lemma read_hits_no_results (st : locals) (n : nat) (r : response) (data t : json) :
  json_body r = Some data -> total_hits_of data = Ok t -> py_eq_str t "0" = true ->
  read_hits keyword venue year sleep_time r st n =
    (Ok (Break st), [EvLog INFO (MsgNoResults keyword venue year)], n).
Proof.
  intros B T Z0. unfold total_hits_of in T.
  unfold read_hits, response_json, bind, lift. rewrite B. unfold ret.
  destruct (py_get data "result" (JObj [])) as [x|]; [|discriminate]. simpl in T.
  destruct (py_get x "hits" (JObj [])) as [y|]; [|discriminate]. simpl in T.
  rewrite T, Z0. reflexivity.
Qed.

Lemma read_hits_shape (st : locals) (n : nat) (r : response) :
  exists c evs,
    read_hits keyword venue year sleep_time r st n = (c, evs, n) /\
    attempts evs = O /\
    ((exists st', c = Ok (Break st')) \/ (exists e, c = Raise e /\ sleeps evs = [])).
Proof.
  unfold read_hits, response_json, bind, lift, log, emit, sleep, ret, raise.
  destruct (json_body r) as [data|]; [|eauto 10].
  destruct (py_get data "result" (JObj [])) as [x|]; [|eauto 10].
  destruct (py_get x "hits" (JObj [])) as [y|]; [|eauto 10].
  destruct (py_get y "@total" (JStr "0")) as [t|]; [|eauto 10].
  destruct (py_eq_str t "0"); [simpl; eauto 10|].
  destruct (py_int t) as [count|]; [|eauto 10].
  destruct (py_getitem data "result") as [x'|]; [|eauto 10].
  destruct (py_getitem x' "hits") as [y'|]; [|eauto 10].
  destruct (py_get y' "hit" (JArr [])) as [hs|]; [|eauto 10].
  destruct (py_iter _) as [items|]; [|eauto 10].
  destruct (rmap normalize items) as [entries|]; [|eauto 10].
  destruct (sleep_time <? 0); simpl; [eauto 10|].
  destruct (max_sleep <? sleep_time); simpl; eauto 10.
Qed.

Lemma try_catch_request_exception (m : M control) (st : locals) (n n1 : nat)
    (x : request_error) (evs : list event) :
  m n = (Raise (RequestException x), evs, n1) ->
  try_catch m (handlers keyword venue year st) n =
    (fst (on_request_exception keyword venue year st x),
     evs ++ snd (on_request_exception keyword venue year st x), n1).
Proof.
  intros H. unfold try_catch. rewrite H.
  unfold on_request_exception, handlers, bind, log, emit, sleep, ret, raise.
  destruct (max_retries <? retries st + 1); [reflexivity|].
  destruct (backoff st <? 0); [reflexivity|].
  destruct (max_sleep <? backoff st); reflexivity.
Qed.

Lemma on_request_exception_shape (st : locals) (n : nat) (x : request_error)
    (pre : list event) :
  hint_of (sess n rq) = None ->
  attempts pre = O -> sleeps pre = [] ->
  goes_round sess rq st n (fst (on_request_exception keyword venue year st x))
             (pre ++ snd (on_request_exception keyword venue year st x)) \/
  ends_loop (fst (on_request_exception keyword venue year st x))
            (pre ++ snd (on_request_exception keyword venue year st x)).
Proof.
  intros NH A S. unfold on_request_exception.
  destruct (max_retries <? retries st + 1); simpl.
  - right. split; [rewrite attempts_app, A; reflexivity | eauto].
  - destruct (backoff st <? 0); simpl.
    + right. split; [rewrite attempts_app, A; reflexivity | eauto].
    + destruct (max_sleep <? backoff st); simpl.
      * right. split; [rewrite attempts_app, A; reflexivity | eauto].
      * left. exists (backoff st). eexists (pre ++ [_; _]).
        split; [reflexivity|]. split; [now rewrite <- app_assoc|].
        split; [rewrite attempts_app, A; reflexivity|].
        split; [rewrite sleeps_app, S; reflexivity|].
        unfold retry_delay. now rewrite NH.
Qed.

Lemma attempt_shape (st : locals) (n : nat) :
  exists c evs,
    attempt keyword venue year sess headers sleep_time st n = (c, EvGet rq :: evs, S n) /\
    (goes_round sess rq st n c evs \/ ends_loop c evs).
Proof.
  destruct (sess n rq) as [r|e] eqn:G.
  - destruct (Z.eq_dec (status_code r) 429) as [E|E].
    + rewrite (attempt_rate_limited st n r G E).
      destruct (py_int (retry_after_value r st)) as [d|e] eqn:I.
      * destruct (d <? 0); [|destruct (max_sleep <? d)];
          do 2 eexists; (split; [reflexivity|]).
        -- right. split; [reflexivity | eauto].
        -- right. split; [reflexivity | eauto].
        -- left. exists d. eexists [_]. repeat split.
           unfold retry_delay, hint_of. rewrite G, E. simpl.
           unfold retry_after_value in I.
           destruct (retry_after r) as [s|] eqn:RA; simpl in I.
           ++ destruct (int_of_string s); congruence.
           ++ congruence.
      * do 2 eexists. split; [reflexivity|]. right. split; [reflexivity | eauto].
    + assert (NH : hint_of (Ok r) = None).
      { unfold hint_of. apply Z.eqb_neq in E. now rewrite E. }
      destruct ((400 <=? status_code r) && (status_code r <? 600)) eqn:B.
      * rewrite (attempt_http_error st n r G E B).
        do 2 eexists. split; [reflexivity|].
        apply (on_request_exception_shape st n _ []); [now rewrite G | reflexivity..].
      * assert (P : passes_status r = true).
        { unfold passes_status. rewrite B. apply Z.eqb_neq in E. now rewrite E. }
        rewrite (attempt_passes_status st n r G P).
        destruct (read_hits_shape st (S n) r) as (c & evs & R & A & [[st' ->]|[e [-> Q]]]).
        -- unfold try_catch. rewrite R. do 2 eexists. split; [reflexivity|].
           right. split; eauto.
        -- destruct e as [x|k| | | | |].
           ++ rewrite (try_catch_request_exception _ st _ _ _ _ R).
              do 2 eexists. split; [reflexivity|].
              apply on_request_exception_shape; [now rewrite G | assumption..].
           ++ unfold try_catch. rewrite R. simpl.
              do 2 eexists. split; [reflexivity|].
              right. split; [rewrite attempts_app, A; reflexivity | eauto].
           ++ unfold try_catch. rewrite R. simpl.
              do 2 eexists. split; [reflexivity|]. right. split; eauto.
           ++ unfold try_catch. rewrite R. simpl.
              do 2 eexists. split; [reflexivity|]. right. split; eauto.
           ++ unfold try_catch. rewrite R. simpl.
              do 2 eexists. split; [reflexivity|]. right. split; eauto.
           ++ unfold try_catch. rewrite R. simpl.
              do 2 eexists. split; [reflexivity|]. right. split; eauto.
           ++ unfold try_catch. rewrite R. simpl.
              do 2 eexists. split; [reflexivity|]. right. split; eauto.
  - destruct e as [x|k| | | | |].
    + rewrite (attempt_transport_error st n x G).
      do 2 eexists. split; [reflexivity|].
      apply (on_request_exception_shape st n _ []); [now rewrite G | reflexivity..].
    + unfold attempt, try_catch, try_body, bind, session_get. fold rq. rewrite G. simpl.
      do 2 eexists. split; [reflexivity|]. right. split; eauto.
    + unfold attempt, try_catch, try_body, bind, session_get. fold rq. rewrite G. simpl.
      do 2 eexists. split; [reflexivity|]. right. split; eauto.
    + unfold attempt, try_catch, try_body, bind, session_get. fold rq. rewrite G. simpl.
      do 2 eexists. split; [reflexivity|]. right. split; eauto.
    + unfold attempt, try_catch, try_body, bind, session_get. fold rq. rewrite G. simpl.
      do 2 eexists. split; [reflexivity|]. right. split; eauto.
    + unfold attempt, try_catch, try_body, bind, session_get. fold rq. rewrite G. simpl.
      do 2 eexists. split; [reflexivity|]. right. split; eauto.
    + unfold attempt, try_catch, try_body, bind, session_get. fold rq. rewrite G. simpl.
      do 2 eexists. split; [reflexivity|]. right. split; eauto.
Qed.

(** The bound on the iterations is never what stops the loop: any fuel
    that covers the retries still allowed gives the same run. *)
Lemma while_fuel_enough (fuel : nat) :
  forall (st : locals) (n : nat),
    (Z.to_nat (max_retries + 1 - retries st) <= fuel)%nat ->
    while_loop keyword venue year sess headers sleep_time (S fuel) st n =
    while_loop keyword venue year sess headers sleep_time fuel st n.
Proof.
  induction fuel as [|fuel IH]; intros st n B.
  - simpl. destruct (retries st <=? max_retries) eqn:T; [|reflexivity].
    apply Z.leb_le in T. unfold max_retries in *. lia.
  - change (while_loop keyword venue year sess headers sleep_time (S (S fuel)) st n)
      with ((if retries st <=? max_retries then
               c <- attempt keyword venue year sess headers sleep_time st ;;
               match c with
               | Next st' => while_loop keyword venue year sess headers sleep_time (S fuel) st'
               | Break st' => ret st'
               end
             else ret st) n).
    change (while_loop keyword venue year sess headers sleep_time (S fuel) st n)
      with ((if retries st <=? max_retries then
               c <- attempt keyword venue year sess headers sleep_time st ;;
               match c with
               | Next st' => while_loop keyword venue year sess headers sleep_time fuel st'
               | Break st' => ret st'
               end
             else ret st) n).
    destruct (retries st <=? max_retries) eqn:T; [|reflexivity].
    apply Z.leb_le in T.
    destruct (attempt_shape st n) as (c & evs & A & [G|E]).
    + destruct G as (d & logs & -> & _).
      unfold bind. rewrite A. rewrite IH; [reflexivity|]. cbn [retries]. unfold max_retries in *. lia.
    + destruct E as (_ & [[st' ->]|[e ->]]); unfold bind; rewrite A; reflexivity.
Qed.

Lemma fetch_loop_any_fuel (extra n : nat) :
  while_loop keyword venue year sess headers sleep_time
    (extra + S (Z.to_nat max_retries)) (mkLocals 0 initial_backoff []) n =
  fetch_loop keyword venue year sess headers sleep_time n.
Proof.
  induction extra as [|extra IH]; [reflexivity|].
  rewrite <- IH. apply while_fuel_enough. cbn [retries]. unfold max_retries. lia.
Qed.

(** The [k]-th pause before a retry, counted from the attempt that makes
    call [n] with backoff [b], follows the answer to call [n + k], when the
    backoff has become [b * 2 ^ k]. *)
Lemma while_loop_delay_at (fuel : nat) :
  forall (st : locals) (n k : nat) (d : Z),
    nth_error (retry_delays (events (while_loop keyword venue year sess headers sleep_time
                                       fuel st n))) k = Some d ->
    retry_delay (sess (n + k)%nat rq) (backoff st * 2 ^ Z.of_nat k) = Some d.
Proof.
  induction fuel as [|fuel IH]; intros st n k d.
  - simpl. destruct k; discriminate.
  - simpl. destruct (retries st <=? max_retries); [|simpl; destruct k; discriminate].
    destruct (attempt_shape st n) as (c & evs & A & [G|E]).
    + destruct G as (d0 & logs & -> & -> & Al & Sl & D).
      unfold bind. rewrite A.
      set (st' := mkLocals (retries st + 1) (backoff st * 2) (results st)).
      specialize (IH st' (S n)).
      destruct (while_loop keyword venue year sess headers sleep_time fuel st' (S n))
        as [[r2 evs2] n2].
      unfold events in *. simpl in IH |- *.
      rewrite <- app_assoc. rewrite retry_delays_app_quiet by exact Sl.
      simpl. destruct (0 <? attempts evs2)%nat eqn:Q.
      * destruct k as [|k]; cbn [nth_error].
        -- intros H. injection H as <-.
           rewrite Nat.add_0_r. change (2 ^ Z.of_nat 0) with 1. rewrite Z.mul_1_r. exact D.
        -- intros H. apply IH in H.
           rewrite Nat2Z.inj_succ, Z.pow_succ_r by lia.
           replace (n + S k)%nat with (S (n + k)) by lia.
           replace (backoff st * (2 * 2 ^ Z.of_nat k)) with (backoff st * 2 * 2 ^ Z.of_nat k)
             by ring.
           exact H.
      * apply Nat.ltb_ge in Q. rewrite retry_delays_no_attempt by lia.
        destruct k; discriminate.
    + destruct E as (Ae & [[st' ->]|[e ->]]); unfold bind; rewrite A;
        unfold events; simpl; try rewrite app_nil_r;
        rewrite (retry_delays_no_attempt _ Ae); destruct k; discriminate.
Qed.

End FetchFacts.

(** ** Unfolding the loop by one iteration *)

Section LoopSteps.

Variables (keyword venue year : string).
Variable sess : session.
Variable headers : list (string * string).
Variable sleep_time : Z.

Lemma while_next (fuel : nat) (st st' : locals) (n n' : nat) (evs : list event) :
  retries st <= max_retries ->
  attempt keyword venue year sess headers sleep_time st n = (Ok (Next st'), evs, n') ->
  while_loop keyword venue year sess headers sleep_time (S fuel) st n =
    (let '(r, evs2, n2) := while_loop keyword venue year sess headers sleep_time fuel st' n' in
     (r, evs ++ evs2, n2)).
Proof.
  intros T A. apply Z.leb_le in T. simpl. rewrite T. unfold bind. rewrite A.
  destruct (while_loop keyword venue year sess headers sleep_time fuel st' n') as [[r evs2] n2].
  reflexivity.
Qed.

Lemma while_break (fuel : nat) (st st' : locals) (n n' : nat) (evs : list event) :
  retries st <= max_retries ->
  attempt keyword venue year sess headers sleep_time st n = (Ok (Break st'), evs, n') ->
  while_loop keyword venue year sess headers sleep_time (S fuel) st n = (Ok st', evs, n').
Proof.
  intros T A. apply Z.leb_le in T. simpl. rewrite T. unfold bind. rewrite A.
  unfold ret. now rewrite app_nil_r.
Qed.

Lemma while_raise (fuel : nat) (st : locals) (n n' : nat) (evs : list event) (e : exn) :
  retries st <= max_retries ->
  attempt keyword venue year sess headers sleep_time st n = (Raise e, evs, n') ->
  while_loop keyword venue year sess headers sleep_time (S fuel) st n = (Raise e, evs, n').
Proof.
  intros T A. apply Z.leb_le in T. simpl. rewrite T. unfold bind. now rewrite A.
Qed.

Lemma get_dblp_results_run (n : nat) :
  get_dblp_results keyword venue year sess headers sleep_time n =
    (let '(r, evs, n') := fetch_loop keyword venue year sess headers sleep_time n in
     (match r with Ok st => Ok (results st) | Raise e => Raise e end, evs, n')).
Proof.
  unfold get_dblp_results, bind, ret.
  destruct (fetch_loop keyword venue year sess headers sleep_time n) as [[[st|e] evs] n'];
    [now rewrite app_nil_r | reflexivity].
Qed.

End LoopSteps.

(** ** Exhausted retries *)

Lemma exhausted_run (keyword venue year : string) (sess : session)
    (headers : list (string * string)) (sleep_time : Z) (n : nat) :
  (forall i rq, exists e, sess i rq = Raise (RequestException e)) ->
  exists e1 e2 e3 e4 e5 e6,
    let rq := search_request keyword venue year headers in
    let failed e := EvLog ERROR (MsgFetchError keyword venue year (RequestException e)) in
    let retrying k b := EvLog INFO (MsgRetrying k max_retries b) in
    fetch_loop keyword venue year sess headers sleep_time n =
      (Ok (mkLocals 6 160 []),
       [EvGet rq; failed e1; retrying 1 5; EvSleep 5;
        EvGet rq; failed e2; retrying 2 10; EvSleep 10;
        EvGet rq; failed e3; retrying 3 20; EvSleep 20;
        EvGet rq; failed e4; retrying 4 40; EvSleep 40;
        EvGet rq; failed e5; retrying 5 80; EvSleep 80;
        EvGet rq; failed e6; EvLog ERROR (MsgMaxRetries keyword venue year)],
       (6 + n)%nat).
Proof.
  intros H.
  destruct (H n (search_request keyword venue year headers)) as [e1 E1].
  destruct (H (1 + n)%nat (search_request keyword venue year headers)) as [e2 E2].
  destruct (H (2 + n)%nat (search_request keyword venue year headers)) as [e3 E3].
  destruct (H (3 + n)%nat (search_request keyword venue year headers)) as [e4 E4].
  destruct (H (4 + n)%nat (search_request keyword venue year headers)) as [e5 E5].
  destruct (H (5 + n)%nat (search_request keyword venue year headers)) as [e6 E6].
  exists e1, e2, e3, e4, e5, e6. intros rq failed retrying.
  unfold fetch_loop, initial_backoff.
  change (S (Z.to_nat max_retries)) with 6%nat.
  pose proof (attempt_transport_error keyword venue year sess headers sleep_time) as A.
  erewrite while_next; [|discriminate | rewrite (A _ _ _ E1); vm_compute; reflexivity].
  erewrite while_next; [|discriminate | rewrite (A _ _ _ E2); vm_compute; reflexivity].
  erewrite while_next; [|discriminate | rewrite (A _ _ _ E3); vm_compute; reflexivity].
  erewrite while_next; [|discriminate | rewrite (A _ _ _ E4); vm_compute; reflexivity].
  erewrite while_next; [|discriminate | rewrite (A _ _ _ E5); vm_compute; reflexivity].
  erewrite while_break; [|discriminate | rewrite (A _ _ _ E6); vm_compute; reflexivity].
  reflexivity.
Qed.

(** C2: when every call of [session.get] raises a transport error, the
    fetcher makes exactly [max_retries + 1] attempts, sleeps 5, 10, 20, 40
    and 80 seconds between them (a non-decreasing sequence), logs that the
    retries are exhausted and returns the empty list. *)
Theorem C2_exhausted_retries (keyword venue year : string) (sess : session)
    (headers : list (string * string)) (sleep_time : Z) (n : nat) :
  (forall i rq, exists e, sess i rq = Raise (RequestException e)) ->
  let run := get_dblp_results keyword venue year sess headers sleep_time n in
  outcome run = Ok [] /\
  attempts (events run) = Z.to_nat (max_retries + 1) /\
  calls run = (Z.to_nat (max_retries + 1) + n)%nat /\
  sleeps (events run) = [5; 10; 20; 40; 80] /\
  retry_delays (events run) = [5; 10; 20; 40; 80] /\
  Sorted Z.le (sleeps (events run)) /\
  In (EvLog ERROR (MsgMaxRetries keyword venue year)) (events run).
Proof.
  intros H run. subst run.
  destruct (exhausted_run keyword venue year sess headers sleep_time n H)
    as (e1 & e2 & e3 & e4 & e5 & e6 & R).
  rewrite get_dblp_results_run. cbv zeta in R. rewrite R.
  unfold outcome, events, calls. cbn [fst snd results].
  repeat split; try reflexivity.
  - simpl. repeat constructor; lia.
  - simpl. tauto.
Qed.

Lemma C2_exhausted_retries_witness :
  (forall i rq, exists e, always_timeout i rq = Raise (RequestException e)) /\
  outcome (get_dblp_results "foo" "ICLR" "2024" always_timeout default_headers 5 0%nat) = Ok [] /\
  attempts (events (get_dblp_results "foo" "ICLR" "2024" always_timeout default_headers 5 0%nat)) = 6%nat.
Proof.
  assert (H : forall i rq, exists e, always_timeout i rq = Raise (RequestException e))
    by (intros i rq; exists Timeout; reflexivity).
  split; [exact H|].
  destruct (C2_exhausted_retries "foo" "ICLR" "2024" always_timeout default_headers 5 0%nat H)
    as (O & A & _).
  split; [exact O | exact A].
Defined.

(** ** Delays between retries *)

(** C4, as stated, fails: a 429 that asks for 60 seconds followed by a
    connection error gives the delays 60 then 10. *)
Lemma C4_counterexample :
  ~ Sorted Z.le
      (retry_delays
         (events (get_dblp_results "foo" "all" "2024" hinted_session default_headers 5 0%nat))).
Proof.
  assert (E : retry_delays
                (events (get_dblp_results "foo" "all" "2024" hinted_session
                           default_headers 5 0%nat)) = [60; 10])
    by (vm_compute; reflexivity).
  rewrite E. intros S. inversion S as [|a l S' R]; subst.
  inversion R; subst. lia.
Qed.

Lemma sorted_adjacent (l : list Z) :
  Sorted Z.le l <->
  forall k a b, nth_error l k = Some a -> nth_error l (S k) = Some b -> a <= b.
Proof.
  induction l as [|x l IH].
  - split; [intros _ [|k] a b H; discriminate | constructor].
  - split.
    + intros S k a b Ha Hb. inversion S as [|? ? S' R]; subst.
      destruct k as [|k].
      * simpl in Ha, Hb. injection Ha as <-.
        destruct l as [|y l]; [discriminate|]. simpl in Hb. injection Hb as <-.
        now inversion R.
      * simpl in Ha. apply (proj1 IH S' k a b Ha Hb).
    + intros H. constructor.
      * apply IH. intros k a b Ha Hb. exact (H (S k) a b Ha Hb).
      * destruct l as [|y l]; constructor. exact (H O x y eq_refl eq_refl).
Qed.

(** C4, amended: the pause before the retry that follows the [k]-th answer
    of a query (counted from 0) is the Retry-After value of that answer when
    it is a 429 that carries one, and [5 * 2 ^ k] seconds otherwise.  So the
    pauses that are not taken from a hint never decrease, whatever comes
    between them; the whole sequence is non-decreasing exactly when every
    pause taken from a hint is in order with the pause before it and the
    pause after it; and it is non-decreasing, from 5 seconds upward, when no
    answer carries a hint. *)
Theorem C4_retry_delays (keyword venue year : string) (sess : session)
    (headers : list (string * string)) (sleep_time : Z) (n : nat) :
  let rq := search_request keyword venue year headers in
  let delays :=
    retry_delays (events (get_dblp_results keyword venue year sess headers sleep_time n)) in
  (forall k d, nth_error delays k = Some d ->
     retry_delay (sess (n + k)%nat rq) (initial_backoff * 2 ^ Z.of_nat k) = Some d) /\
  (forall i j di dj, (i <= j)%nat ->
     nth_error delays i = Some di -> nth_error delays j = Some dj ->
     hint_of (sess (n + i)%nat rq) = None -> hint_of (sess (n + j)%nat rq) = None ->
     di <= dj) /\
  (Sorted Z.le delays <->
   forall k d d', nth_error delays k = Some d -> nth_error delays (S k) = Some d' ->
     hint_of (sess (n + k)%nat rq) <> None \/ hint_of (sess (n + S k)%nat rq) <> None ->
     d <= d') /\
  ((forall k, hint_of (sess (n + k)%nat rq) = None) ->
   Sorted Z.le delays /\ Forall (Z.le initial_backoff) delays).
Proof.
  intros rq delays.
  assert (P : forall k d, nth_error delays k = Some d ->
     retry_delay (sess (n + k)%nat rq) (initial_backoff * 2 ^ Z.of_nat k) = Some d).
  { intros k d H. subst delays. rewrite get_dblp_results_run in H.
    pose proof (while_loop_delay_at keyword venue year sess headers sleep_time
                  (S (Z.to_nat max_retries)) (mkLocals 0 initial_backoff []) n k d) as D.
    fold (fetch_loop keyword venue year sess headers sleep_time) in D.
    destruct (fetch_loop keyword venue year sess headers sleep_time n) as [[r evs] n'].
    exact (D H). }
  assert (U : forall i j di dj, (i <= j)%nat ->
     nth_error delays i = Some di -> nth_error delays j = Some dj ->
     hint_of (sess (n + i)%nat rq) = None -> hint_of (sess (n + j)%nat rq) = None ->
     di <= dj).
  { intros i j di dj L Hi Hj Ni Nj.
    apply P in Hi, Hj. unfold retry_delay in Hi, Hj. rewrite Ni in Hi. rewrite Nj in Hj.
    assert (Ei : di = initial_backoff * 2 ^ Z.of_nat i) by congruence.
    assert (Ej : dj = initial_backoff * 2 ^ Z.of_nat j) by congruence.
    assert (2 ^ Z.of_nat i <= 2 ^ Z.of_nat j) by (apply Z.pow_le_mono_r; lia).
    rewrite Ei, Ej. unfold initial_backoff. lia. }
  split; [exact P|]. split; [exact U|]. split; [|].
  - rewrite sorted_adjacent. split.
    + intros H k d d' Hd Hd' _. exact (H k d d' Hd Hd').
    + intros H k d d' Hd Hd'.
      destruct (hint_of (sess (n + k)%nat rq)) as [s|] eqn:Hk;
        [apply (H k d d' Hd Hd'); left; congruence|].
      destruct (hint_of (sess (n + S k)%nat rq)) as [s|] eqn:Hk';
        [apply (H k d d' Hd Hd'); right; congruence|].
      apply (U k (S k) d d'); auto.
  - intros NH. split.
    + apply sorted_adjacent. intros k d d' Hd Hd'. apply (U k (S k) d d'); auto.
    + apply Forall_forall. intros d Hin.
      destruct (In_nth_error _ _ Hin) as [k Hk].
      apply P in Hk. unfold retry_delay in Hk. rewrite NH in Hk.
      assert (Ek : d = initial_backoff * 2 ^ Z.of_nat k) by congruence.
      assert (0 < 2 ^ Z.of_nat k) by (apply Z.pow_pos_nonneg; lia).
      rewrite Ek. unfold initial_backoff. lia.
Qed.

Lemma C4_retry_delays_witness :
  retry_delays
    (events (get_dblp_results "foo" "all" "2024" short_hint_session default_headers 5 0%nat))
  = [1; 10; 20] /\
  Sorted Z.le
    (retry_delays
       (events (get_dblp_results "foo" "all" "2024" short_hint_session default_headers 5 0%nat))) /\
  retry_delays
    (events (get_dblp_results "foo" "all" "2024" unhinted_session default_headers 5 0%nat))
  = [5; 10] /\
  Sorted Z.le
    (retry_delays
       (events (get_dblp_results "foo" "all" "2024" unhinted_session default_headers 5 0%nat))).
Proof.
  assert (E : retry_delays
                (events (get_dblp_results "foo" "all" "2024" short_hint_session
                           default_headers 5 0%nat)) = [1; 10; 20])
    by (vm_compute; reflexivity).
  split; [exact E|]. split; [|split; [vm_compute; reflexivity|]].
  - apply (proj1 (proj2 (proj2 (C4_retry_delays "foo" "all" "2024" short_hint_session
                                  default_headers 5 0%nat)))).
    rewrite E. intros [|[|[|k]]] d d' Hd Hd' _; simpl in Hd, Hd';
      try discriminate; injection Hd as <-; injection Hd' as <-; lia.
  - apply (proj2 (proj2 (proj2 (C4_retry_delays "foo" "all" "2024" unhinted_session
                                  default_headers 5 0%nat)))).
    intros [|[|k]]; reflexivity.
Defined.

(** ** Exceptions of the built-ins and of the normalisation *)

Lemma py_int_raises (v : json) (e : exn) :
  py_int v = Raise e -> e = ValueError \/ e = TypeError.
Proof.
  destruct v; simpl; try discriminate; try (intros H; injection H as <-; auto; fail).
  destruct (int_of_string s); [discriminate|]. intros H; injection H as <-; auto.
Qed.

Lemma py_get_raises (o : json) (k : string) (d : json) (e : exn) :
  py_get o k d = Raise e -> e = AttributeError.
Proof. destruct o; simpl; congruence. Qed.

Lemma py_iter_raises (v : json) (e : exn) : py_iter v = Raise e -> e = TypeError.
Proof. destruct v; simpl; congruence. Qed.

Lemma rmap_raises {A B : Type} (Q : exn -> Prop) (f : A -> result B) (l : list A) (e : exn) :
  (forall x e', f x = Raise e' -> Q e') -> rmap f l = Raise e -> Q e.
Proof.
  intros H. induction l as [|x l IH]; simpl; [discriminate|].
  destruct (f x) as [y|e'] eqn:F; simpl.
  - destruct (rmap f l) as [ys|e'']; simpl; [discriminate|].
    intros E. injection E as <-. now apply IH.
  - intros E. injection E as <-. now apply (H x).
Qed.

Lemma strings_of_raises (l : list json) (e : exn) : strings_of l = Raise e -> e = TypeError.
Proof.
  induction l as [|[] l IH]; simpl; try congruence.
  destruct (strings_of l); simpl; [discriminate|].
  intros E. injection E as <-. now apply IH.
Qed.

Lemma normalize_raises (hit : json) (e : exn) :
  normalize hit = Raise e -> e = AttributeError \/ e = TypeError.
Proof.
  unfold normalize. intros H.
  destruct (py_get hit "info" (JObj [])) as [info|] eqn:E1; simpl in H;
    [|injection H as <-; left; eapply py_get_raises; eauto].
  destruct (py_get info "authors" (JObj [])) as [au|] eqn:E2; simpl in H;
    [|injection H as <-; left; eapply py_get_raises; eauto].
  destruct (py_get au "author" (JArr [])) as [ai|] eqn:E3; simpl in H;
    [|injection H as <-; left; eapply py_get_raises; eauto].
  assert (I : exists fi, info = JObj fi) by (destruct info; try discriminate; eauto).
  destruct I as [fi ->]. simpl in H.
  match type of H with
  | rbind ?a _ = _ => destruct a as [authors|e'] eqn:E4; simpl in H; [discriminate|]
  end.
  injection H as <-.
  destruct ai; simpl in E4; try discriminate.
  destruct (rmap (fun author => py_get author "text" (JStr "")) items) as [texts|e''] eqn:E5;
    simpl in E4.
  - unfold py_join in E4.
    destruct (strings_of texts) eqn:E6; simpl in E4; [discriminate|].
    injection E4 as <-. right. eapply strings_of_raises; eauto.
  - injection E4 as <-. left.
    apply (rmap_raises (fun e => e = AttributeError) _ _ _
             (fun x e' => py_get_raises x "text" (JStr "") e') E5).
Qed.

(** ** Responses that carry a body *)


Lemma lacks_total_zero (data : json) :
  lacks_total data -> total_hits_of data = Ok (JStr "0").
Proof.
  intros (df & -> & [R|(rf & R & [Hh|(hf & Hh & T)])]);
    unfold total_hits_of; simpl; rewrite R; simpl; try reflexivity;
    rewrite Hh; simpl; try reflexivity.
  now rewrite T.
Qed.

Section Bodies.

Variables (keyword venue year : string).
Variable sess : session.
Variable headers : list (string * string).
Variable sleep_time : Z.

Local Abbreviation rq := (search_request keyword venue year headers).

Lemma read_hits_items (st : locals) (n : nat) (r : response) (data total : json)
    (hit : option json) (count : Z) (items : list json) :
  json_body r = Some data -> has_total data total hit ->
  py_eq_str total "0" = false -> py_int total = Ok count ->
  hit_items hit = Ok items ->
  read_hits keyword venue year sleep_time r st n =
    match rmap normalize items with
    | Raise e => (Raise e, [], n)
    | Ok entries => pause_and_leave keyword venue year sleep_time st count entries [] n
    end.
Proof.
  intros B (df & rf & hf & -> & R & Hh & T & Hl) Z0 I Hi.
  unfold read_hits, response_json, bind, lift, ret. rewrite B.
  simpl. rewrite R. simpl. rewrite Hh. simpl. rewrite T, Z0, I.
  match goal with
  | |- context [py_iter ?x] => assert (E : py_iter x = Ok items)
  end.
  { rewrite Hl. unfold hit_items in Hi.
    destruct hit as [[]|]; simpl in *; congruence. }
  rewrite E. destruct (rmap normalize items) as [entries|e]; [|reflexivity].
  unfold pause_and_leave, log, emit, sleep, raise.
  destruct (sleep_time <? 0); [reflexivity|].
  destruct (max_sleep <? sleep_time); reflexivity.
Qed.

Lemma attempt_items (st : locals) (n : nat) (r : response) (data total : json)
    (hit : option json) (count : Z) (items : list json) :
  sess n rq = Ok r -> passes_status r = true ->
  json_body r = Some data -> has_total data total hit ->
  py_eq_str total "0" = false -> py_int total = Ok count ->
  hit_items hit = Ok items ->
  attempt keyword venue year sess headers sleep_time st n =
    match rmap normalize items with
    | Raise e => (Raise e, [EvGet rq], S n)
    | Ok entries => pause_and_leave keyword venue year sleep_time st count entries [EvGet rq] (S n)
    end.
Proof.
  intros G P B HT Z0 I Hi.
  rewrite (attempt_passes_status _ _ _ _ _ _ _ _ _ G P).
  unfold try_catch.
  rewrite (read_hits_items st (S n) r data total hit count items B HT Z0 I Hi).
  destruct (rmap normalize items) as [entries|e] eqn:N.
  - unfold pause_and_leave.
    destruct (sleep_time <? 0); [reflexivity|].
    destruct (max_sleep <? sleep_time); reflexivity.
  - assert (Q : e = AttributeError \/ e = TypeError)
      by exact (rmap_raises (fun e => e = AttributeError \/ e = TypeError) normalize items e
                  normalize_raises N).
    destruct Q as [-> | ->]; reflexivity.
Qed.


(** A response that passes the status checks and reports no hits ends
    the query at once. *)
Lemma zero_total_run (n : nat) (r : response) (data : json) :
  sess n (search_request keyword venue year headers) = Ok r ->
  passes_status r = true -> json_body r = Some data ->
  total_hits_of data = Ok (JStr "0") ->
  fetch_loop keyword venue year sess headers sleep_time n =
    (Ok (mkLocals 0 initial_backoff []),
     [EvGet (search_request keyword venue year headers);
      EvLog INFO (MsgNoResults keyword venue year)], S n).
Proof.
  intros G P B T. unfold fetch_loop.
  eapply while_break; [discriminate|].
  rewrite (attempt_passes_status _ _ _ _ _ _ _ _ _ G P).
  unfold try_catch.
  now rewrite (read_hits_no_results keyword venue year sleep_time _ _ _ _ _ B T eq_refl).
Qed.

End Bodies.

(** ** A rate limit followed by a success *)

(** C5, refuted: when the first response is a 429 whose Retry-After value
    does not read as a whole number (an HTTP date, which the header
    allows), [int] raises [ValueError] at line 80; no [except] clause
    catches it, so the fetcher raises after that one request, whatever the
    second response would have been: no retry, no sleep, no result. *)
Theorem C5_unreadable_hint_escapes (keyword venue year : string) (sess : session)
    (headers : list (string * string)) (sleep_time : Z) (n : nat)
    (r1 : response) (hint : string) :
  let rq := search_request keyword venue year headers in
  sess n rq = Ok r1 -> status_code r1 = 429 ->
  retry_after r1 = Some hint -> int_of_string hint = None ->
  get_dblp_results keyword venue year sess headers sleep_time n =
    (Raise ValueError, [EvGet rq], S n).
Proof.
  intros rq G S1 RA I.
  assert (A : attempt keyword venue year sess headers sleep_time
                (mkLocals 0 initial_backoff []) n = (Raise ValueError, [EvGet rq], S n)).
  { rewrite (attempt_rate_limited _ _ _ _ _ _ _ _ _ G S1).
    unfold retry_after_value. rewrite RA. simpl. now rewrite I. }
  assert (T : retries (mkLocals 0 initial_backoff []) <= max_retries) by discriminate.
  rewrite get_dblp_results_run. unfold fetch_loop.
  rewrite (while_raise _ _ _ _ _ _ _ _ _ _ _ _ T A). reflexivity.
Qed.

Lemma C5_unreadable_hint_escapes_witness :
  dated_hint_session 1%nat (search_request "foo" "all" "2024" default_headers) =
    Ok (ok_response (search_body (JStr "1") [sample_hit])) /\
  get_dblp_results "foo" "all" "2024" dated_hint_session default_headers 5 0%nat =
    (Raise ValueError, [EvGet (search_request "foo" "all" "2024" default_headers)], 1%nat).
Proof.
  split; [reflexivity|].
  apply (C5_unreadable_hint_escapes "foo" "all" "2024" dated_hint_session default_headers
           5 0%nat (rate_limited (Some "Wed, 21 Oct 2015 07:28:00 GMT"))
           "Wed, 21 Oct 2015 07:28:00 GMT"); reflexivity.
Defined.



(** ** A hit the normalisation does not accept *)

(** C7, refuted: the normalisation has a failure path.  When a response
    reports a total other than "0" and the normalisation of one of its hits
    raises (an [AttributeError] or a [TypeError]: lines 103-106 call [.get]
    on whatever the hit carries), no [except] clause catches the exception:
    the fetcher raises it after that one request and returns no entry, not
    even those of the hits before. *)
Theorem C7_malformed_hit_escapes (keyword venue year : string) (sess : session)
    (headers : list (string * string)) (sleep_time : Z) (n : nat)
    (r : response) (data total : json) (hit : option json) (count : Z)
    (items : list json) (e : exn) :
  let rq := search_request keyword venue year headers in
  sess n rq = Ok r -> passes_status r = true ->
  json_body r = Some data -> has_total data total hit ->
  py_eq_str total "0" = false -> py_int total = Ok count ->
  hit_items hit = Ok items -> rmap normalize items = Raise e ->
  (e = AttributeError \/ e = TypeError) /\
  get_dblp_results keyword venue year sess headers sleep_time n =
    (Raise e, [EvGet rq], S n).
Proof.
  intros rq G P B HT Z0 I Hi N.
  split.
  - exact (rmap_raises (fun e => e = AttributeError \/ e = TypeError) normalize items e
             normalize_raises N).
  - pose proof (attempt_items keyword venue year sess headers sleep_time
                  (mkLocals 0 initial_backoff []) n r data total hit count items
                  G P B HT Z0 I Hi) as A.
    rewrite N in A.
    assert (T : retries (mkLocals 0 initial_backoff []) <= max_retries) by discriminate.
    rewrite get_dblp_results_run. unfold fetch_loop.
    rewrite (while_raise _ _ _ _ _ _ _ _ _ _ _ _ T A). reflexivity.
Qed.

Lemma C7_malformed_hit_escapes_witness :
  normalize plain_authors_hit = Raise AttributeError /\
  get_dblp_results "foo" "all" "2024" plain_authors_session default_headers 5 0%nat =
    (Raise AttributeError, [EvGet (search_request "foo" "all" "2024" default_headers)], 1%nat).
Proof.
  split; [reflexivity|].
  assert (HT : has_total (search_body (JStr "2") [sample_hit; plain_authors_hit]) (JStr "2")
                 (Some (JArr [sample_hit; plain_authors_hit])))
    by (do 3 eexists; repeat split).
  apply (C7_malformed_hit_escapes "foo" "all" "2024" plain_authors_session default_headers
           5 0%nat (ok_response (search_body (JStr "2") [sample_hit; plain_authors_hit]))
           (search_body (JStr "2") [sample_hit; plain_authors_hit]) (JStr "2")
           (Some (JArr [sample_hit; plain_authors_hit])) 2
           [sample_hit; plain_authors_hit] AttributeError);
    try reflexivity; exact HT.
Defined.

(** ** Responses without results *)

(** C6: when a response that passes the status checks reports the total
    "0", the fetcher returns the empty list after that one attempt, with no
    sleep and the retry counter still at zero. *)
Theorem C6_zero_total (keyword venue year : string) (sess : session)
    (headers : list (string * string)) (sleep_time : Z) (n : nat)
    (r : response) (data : json) :
  let rq := search_request keyword venue year headers in
  sess n rq = Ok r -> passes_status r = true ->
  json_body r = Some data -> total_hits_of data = Ok (JStr "0") ->
  fetch_loop keyword venue year sess headers sleep_time n =
    (Ok (mkLocals 0 initial_backoff []),
     [EvGet rq; EvLog INFO (MsgNoResults keyword venue year)], S n) /\
  get_dblp_results keyword venue year sess headers sleep_time n =
    (Ok [], [EvGet rq; EvLog INFO (MsgNoResults keyword venue year)], S n).
Proof.
  intros rq G P B T.
  pose proof (zero_total_run keyword venue year sess headers sleep_time n r data G P B T) as R.
  split; [exact R|].
  rewrite get_dblp_results_run, R. reflexivity.
Qed.

Lemma C6_zero_total_witness :
  total_hits_of (search_body (JStr "0") []) = Ok (JStr "0") /\
  get_dblp_results "foo" "ICLR" "2024" zero_total_session default_headers 5 0%nat =
    (Ok [], [EvGet (search_request "foo" "ICLR" "2024" default_headers);
             EvLog INFO (MsgNoResults "foo" "ICLR" "2024")], 1%nat).
Proof.
  split; [reflexivity|].
  apply (C6_zero_total "foo" "ICLR" "2024" zero_total_session default_headers 5 0%nat
           (ok_response (search_body (JStr "0") [])) (search_body (JStr "0") []));
    reflexivity.
Defined.

(** C10: when the body of a response that passes the status checks lacks
    [result], or [hits] inside it, or [@total] inside that, the fetcher
    returns the empty list after that one attempt, without sleeping,
    retrying or raising: the same run as for a body whose total is "0". *)
Theorem C10_missing_total (keyword venue year : string) (sess : session)
    (headers : list (string * string)) (sleep_time : Z) (n : nat)
    (r : response) (data : json) :
  let rq := search_request keyword venue year headers in
  sess n rq = Ok r -> passes_status r = true ->
  json_body r = Some data -> lacks_total data ->
  fetch_loop keyword venue year sess headers sleep_time n =
    (Ok (mkLocals 0 initial_backoff []),
     [EvGet rq; EvLog INFO (MsgNoResults keyword venue year)], S n) /\
  get_dblp_results keyword venue year sess headers sleep_time n =
    (Ok [], [EvGet rq; EvLog INFO (MsgNoResults keyword venue year)], S n) /\
  get_dblp_results keyword venue year sess headers sleep_time n =
    get_dblp_results keyword venue year zero_total_session headers sleep_time n.
Proof.
  intros rq G P B L.
  pose proof (zero_total_run keyword venue year sess headers sleep_time n r data G P B
                (lacks_total_zero data L)) as R.
  pose proof (zero_total_run keyword venue year zero_total_session headers sleep_time n
                (ok_response (search_body (JStr "0") [])) (search_body (JStr "0") [])
                eq_refl eq_refl eq_refl eq_refl) as R0.
  split; [exact R|].
  rewrite !get_dblp_results_run, R, R0. split; reflexivity.
Qed.

Lemma C10_missing_total_witness :
  lacks_total (JObj []) /\
  get_dblp_results "foo" "ICLR" "2024" empty_body_session default_headers 5 0%nat =
    (Ok [], [EvGet (search_request "foo" "ICLR" "2024" default_headers);
             EvLog INFO (MsgNoResults "foo" "ICLR" "2024")], 1%nat).
Proof.
  assert (L : lacks_total (JObj [])) by (exists []; split; [reflexivity | now left]).
  split; [exact L|].
  apply (C10_missing_total "foo" "ICLR" "2024" empty_body_session default_headers 5 0%nat
           (ok_response (JObj [])) (JObj [])); try reflexivity; exact L.
Defined.

(** ** The loops of the orchestrator *)

Section AggregationFacts.

Variable files : filesystem.
Variable sess : session.
Variable headers : list (string * string).
Variable save_bibtex : bool.
Variable bib_dir : string.

Lemma query_step_run (keyword year venue : string) (acc : list entry) (n : nat) :
  query_step files sess headers save_bibtex bib_dir keyword year venue acc n =
    match fetch_query files sess headers save_bibtex bib_dir keyword (year, venue) n with
    | (Ok r, evs, n1) => (Ok (acc ++ r), evs, n1)
    | (Raise e, evs, n1) => (Raise e, evs, n1)
    end.
Proof.
  unfold query_step, fetch_query, bind, log, emit, ret. simpl.
  destruct (get_dblp_results keyword venue year sess headers 5 n) as [[[r|e] evs] n1];
    [|reflexivity].
  destruct (if save_bibtex then _ else _) as [[[[]|e] evs2] n2]; reflexivity.
Qed.

Lemma venues_loop (keyword year : string) (venues : list string) :
  forall (acc : list entry) (n : nat),
    for_each venues
      (fun venue kr => query_step files sess headers save_bibtex bib_dir keyword year venue kr)
      acc n =
    match collect (fetch_query files sess headers save_bibtex bib_dir keyword)
                  (map (pair year) venues) n with
    | (Ok rs, evs, n1) => (Ok (acc ++ rs), evs, n1)
    | (Raise e, evs, n1) => (Raise e, evs, n1)
    end.
Proof.
  induction venues as [|venue venues IH]; intros acc n.
  - simpl. unfold ret. now rewrite app_nil_r.
  - simpl. unfold bind. rewrite query_step_run.
    destruct (fetch_query files sess headers save_bibtex bib_dir keyword (year, venue) n)
      as [[[r|e] evs] n1]; [|reflexivity].
    rewrite IH.
    destruct (collect _ (map (pair year) venues) n1) as [[[rs|e] evs2] n2];
      [|reflexivity].
    unfold ret. now rewrite app_nil_r, app_assoc.
Qed.

Lemma collect_app {A B : Type} (f : A -> M (list B)) (a b : list A) (n : nat) :
  collect f (a ++ b) n =
    match collect f a n with
    | (Ok ra, evs, n1) =>
        match collect f b n1 with
        | (Ok rb, evs2, n2) => (Ok (ra ++ rb), evs ++ evs2, n2)
        | (Raise e, evs2, n2) => (Raise e, evs ++ evs2, n2)
        end
    | (Raise e, evs, n1) => (Raise e, evs, n1)
    end.
Proof.
  revert n. induction a as [|x a IH]; intros n.
  - simpl. destruct (collect f b n) as [[[rb|e] evs2] n2]; reflexivity.
  - simpl. unfold bind.
    destruct (f x n) as [[[r|e] evs] n1]; [|reflexivity].
    rewrite IH.
    destruct (collect f a n1) as [[[ra|e] evs1] n2]; [|reflexivity].
    unfold ret. simpl.
    destruct (collect f b n2) as [[[rb|e] evs2] n3]; simpl;
      rewrite ?app_nil_r, ?app_assoc; reflexivity.
Qed.

Lemma years_loop (keyword : string) (venues years : list string) :
  forall (acc : list entry) (n : nat),
    for_each years
      (fun year kr =>
         for_each venues
           (fun venue kr => query_step files sess headers save_bibtex bib_dir keyword year venue kr)
           kr)
      acc n =
    match collect (fetch_query files sess headers save_bibtex bib_dir keyword)
                  (list_prod years venues) n with
    | (Ok rs, evs, n1) => (Ok (acc ++ rs), evs, n1)
    | (Raise e, evs, n1) => (Raise e, evs, n1)
    end.
Proof.
  induction years as [|year years IH]; intros acc n.
  - simpl. unfold ret. now rewrite app_nil_r.
  - simpl. unfold bind at 1. rewrite venues_loop, collect_app.
    destruct (collect _ (map (pair year) venues) n) as [[[ra|e] evs] n1]; [|reflexivity].
    rewrite IH.
    destruct (collect _ (list_prod years venues) n1) as [[[rb|e] evs2] n2];
      [|reflexivity].
    now rewrite app_assoc.
Qed.

Lemma for_each_ext {A S : Type} (f g : A -> S -> M S) (l : list A) :
  (forall x s n, f x s n = g x s n) ->
  forall (s : S) (n : nat), for_each l f s n = for_each l g s n.
Proof.
  intros H. induction l as [|x l IH]; intros s n; [reflexivity|].
  simpl. unfold bind. rewrite H.
  destruct (g x s n) as [[[s'|e] evs] n1]; [|reflexivity].
  now rewrite IH.
Qed.

Lemma run_refines (keywords venues years : list string) (n : nat) :
  run files sess headers save_bibtex bib_dir keywords venues years n =
  run_spec files sess headers save_bibtex bib_dir keywords venues years n.
Proof.
  unfold run, run_spec. apply for_each_ext.
  intros keyword d m. unfold bind. rewrite years_loop.
  destruct (collect _ (list_prod years venues) m) as [[[rs|e] evs] n1]; reflexivity.
Qed.

End AggregationFacts.


(** ** The artifact downloader *)

(** With a session object whose [get] takes the extra positional argument,
    a failed request is logged and the function returns. *)
Lemma download_bibtex_request_fails (files : filesystem) (url title : json) (bib_folder : string)
    (sess : session) (headers : list (string * string)) (n : nat) (e : request_error) :
  sess n (artifact_request url headers) = Raise (RequestException e) ->
  download_bibtex files url title bib_folder sess headers n =
    (Ok tt, [EvGet (artifact_request url headers);
             EvLog ERROR (MsgDownloadError title (RequestException e))], S n).
Proof.
  intros H. unfold download_bibtex, try_catch, bind, session_get. rewrite H. reflexivity.
Qed.

Lemma download_bibtex_status_fails (files : filesystem) (url title : json) (bib_folder : string)
    (sess : session) (headers : list (string * string)) (n : nat) (r : response) :
  sess n (artifact_request url headers) = Ok r ->
  (400 <=? status_code r) && (status_code r <? 600) = true ->
  download_bibtex files url title bib_folder sess headers n =
    (Ok tt, [EvGet (artifact_request url headers);
             EvLog ERROR (MsgDownloadError title (RequestException (HTTPError (status_code r))))],
     S n).
Proof.
  intros H E. unfold download_bibtex, try_catch, bind, session_get, raise_for_status.
  rewrite H, E. reflexivity.
Qed.

(** C3: with the session the program creates, the call
    [session.get(url, headers, timeout=10)] raises [TypeError] for every URL
    and title; the exception is not a [RequestException], so it leaves
    [download_bibtex]. *)
Theorem C3_download_raises (files : filesystem) (url title : json) (bib_folder : string) (network : session)
    (headers : list (string * string)) (n : nat) :
  download_bibtex files url title bib_folder (create_session_with_retries network) headers n =
    (Raise TypeError, [EvGet (artifact_request url headers)], S n).
Proof. reflexivity. Qed.

(** ** Errors that leave the fetcher *)

Lemma total_conversion_raises (keyword venue year : string) (sess : session)
    (headers : list (string * string)) (sleep_time : Z) (n : nat)
    (r : response) (data total : json) (e : exn) :
  sess n (search_request keyword venue year headers) = Ok r ->
  passes_status r = true -> json_body r = Some data ->
  total_hits_of data = Ok total -> py_eq_str total "0" = false ->
  py_int total = Raise e ->
  get_dblp_results keyword venue year sess headers sleep_time n =
    (Raise e, [EvGet (search_request keyword venue year headers)], S n).
Proof.
  intros G P B T Z0 I.
  assert (R : read_hits keyword venue year sleep_time r (mkLocals 0 initial_backoff []) (S n)
              = (Raise e, [], S n)).
  { unfold total_hits_of in T.
    unfold read_hits, response_json, bind, lift. rewrite B. unfold ret.
    destruct (py_get data "result" (JObj [])) as [x|]; [|discriminate]. simpl in T.
    destruct (py_get x "hits" (JObj [])) as [y|]; [|discriminate]. simpl in T.
    rewrite T, Z0, I. reflexivity. }
  assert (N : handlers keyword venue year (mkLocals 0 initial_backoff []) e = None).
  { destruct total; simpl in I; try discriminate;
      try (destruct (int_of_string s)); inversion I; reflexivity. }
  rewrite get_dblp_results_run. unfold fetch_loop.
  erewrite while_raise; [reflexivity | discriminate |].
  rewrite (attempt_passes_status _ _ _ _ _ _ _ _ _ G P).
  unfold try_catch. rewrite R, N. reflexivity.
Qed.

Lemma dated_retry_after_raises :
  outcome (get_dblp_results "foo" "all" "2024"
             (create_session_with_retries dated_retry_network) default_headers 5 0%nat)
  = Raise ValueError.
Proof. vm_compute. reflexivity. Qed.

Lemma downloads_abort_batch (files : filesystem) :
  outcome (main files one_hit_network true "out" ["foo"] ["all"] ["2024"] 0%nat) = Raise TypeError.
Proof. vm_compute. reflexivity. Qed.

(** C1: a 200 response whose [@total] is not a number makes
    [get_dblp_results] raise [ValueError], and [main] ends with that
    exception instead of returning a map. *)
Theorem C1_batch_aborts (files : filesystem) :
  outcome (get_dblp_results "foo" "all" "2024"
             (create_session_with_retries bad_total_network) default_headers 5 0%nat)
  = Raise ValueError /\
  outcome (main files bad_total_network false "out" ["foo"] ["all"] ["2024"] 0%nat)
  = Raise ValueError.
Proof. split; vm_compute; reflexivity. Qed.

(** ** File names *)

Lemma underscore_valid : invalid_in_filename "_"%char = false.
Proof. reflexivity. Qed.

(** X1: sanitising a string keeps its length, leaves none of the nine
    forbidden characters, and changes a character only when it is one of
    them, into an underscore. *)
Theorem X1_sanitize_clean (s : string) :
  exists t,
    sanitize_filename (JStr s) = Ok t /\
    String.length t = String.length s /\
    (forall c, In c (list_ascii_of_string t) -> invalid_in_filename c = false) /\
    (forall i, String.get i t =
               option_map (fun c => if invalid_in_filename c then "_"%char else c)
                          (String.get i s)).
Proof.
  exists (replace_invalid s). split; [reflexivity|].
  split; [|split].
  - induction s as [|c s IH]; simpl; [reflexivity | now rewrite IH].
  - induction s as [|c s IH]; simpl; [tauto|].
    intros x [<-|H]; [|now apply IH].
    destruct (invalid_in_filename c) eqn:E; [reflexivity | exact E].
  - induction s as [|c s IH]; intros i; simpl; [reflexivity|].
    destruct i as [|i]; [reflexivity | apply IH].
Qed.

Lemma replace_invalid_clean (s : string) :
  forallb (fun c => negb (invalid_in_filename c)) (list_ascii_of_string s) = true ->
  replace_invalid s = s.
Proof.
  induction s as [|c s IH]; simpl; [reflexivity|].
  intros H. apply andb_prop in H. destruct H as [Hc Hs].
  apply negb_true_iff in Hc. rewrite Hc, (IH Hs). reflexivity.
Qed.

Lemma replace_invalid_is_clean (s : string) :
  forallb (fun c => negb (invalid_in_filename c))
          (list_ascii_of_string (replace_invalid s)) = true.
Proof.
  induction s as [|c s IH]; simpl; [reflexivity|].
  rewrite IH, andb_true_r.
  destruct (invalid_in_filename c) eqn:E; [reflexivity | now rewrite E].
Qed.

(** X2: sanitising twice is the same as sanitising once, and a string is
    left as it is exactly when it holds no forbidden character. *)
Theorem X2_sanitize_idempotent (s : string) :
  rbind (sanitize_filename (JStr s)) (fun t => sanitize_filename (JStr t))
    = sanitize_filename (JStr s) /\
  (sanitize_filename (JStr s) = Ok s <->
   forallb (fun c => negb (invalid_in_filename c)) (list_ascii_of_string s) = true).
Proof.
  simpl. split.
  - f_equal. apply replace_invalid_clean, replace_invalid_is_clean.
  - split.
    + intros E. injection E as E. rewrite <- E at 1. apply replace_invalid_is_clean.
    + intros H. now rewrite (replace_invalid_clean s H).
Qed.

(** ** Case of the venue *)

Lemma lower_char_idempotent (c : ascii) : lower_char (lower_char c) = lower_char c.
Proof.
  destruct c as [[] [] [] [] [] [] [] []]; reflexivity.
Qed.

Lemma lower_idempotent (s : string) : lower (lower s) = lower s.
Proof.
  induction s as [|c s IH]; simpl; [reflexivity|].
  now rewrite lower_char_idempotent, IH.
Qed.

(** X3: the query does not depend on the case of the venue: a venue and its
    lower-case form give the same query string, so "ALL", "All" and "all"
    all leave the venue clause out. *)
Theorem X3_venue_case_insensitive (keyword venue year : string) :
  query_string keyword venue year = query_string keyword (lower venue) year /\
  (lower venue = "all" ->
   query_string keyword venue year = query_string keyword "all" year).
Proof.
  unfold query_string, query_parts. rewrite lower_idempotent.
  split; [reflexivity|]. intros ->. reflexivity.
Qed.

Lemma X3_venue_case_insensitive_witness :
  lower "ALL" = "all" /\
  query_string "foo" "ALL" "2024" = query_string "foo" "all" "2024".
Proof.
  split; [reflexivity|].
  apply (proj2 (X3_venue_case_insensitive "foo" "ALL" "2024")). reflexivity.
Defined.

(** ** Which events a computation can perform *)

Section Emits.

Variable P : event -> Prop.

Lemma emits_ret {A : Type} (a : A) : emits P (ret a).
Proof. intros n. constructor. Qed.

Lemma emits_raise {A : Type} (e : exn) : emits P (@raise A e).
Proof. intros n. constructor. Qed.

Lemma emits_lift {A : Type} (r : result A) : emits P (lift r).
Proof. intros n. constructor. Qed.

Lemma emits_emit (ev : event) : P ev -> emits P (emit ev).
Proof. intros H n. repeat constructor. exact H. Qed.

Lemma emits_bind {A B : Type} (m : M A) (f : A -> M B) :
  emits P m -> (forall a, emits P (f a)) -> emits P (bind m f).
Proof.
  intros Hm Hf n. unfold events, bind. specialize (Hm n). unfold events in Hm.
  destruct (m n) as [[[a|e] evs] n1]; simpl in *; [|exact Hm].
  specialize (Hf a n1). unfold events in Hf.
  destruct (f a n1) as [[r evs2] n2]. simpl in *.
  apply Forall_app. split; assumption.
Qed.

Lemma emits_try_catch {A : Type} (m : M A) (h : exn -> option (M A)) :
  emits P m -> (forall e k, h e = Some k -> emits P k) -> emits P (try_catch m h).
Proof.
  intros Hm Hh n. unfold events, try_catch. specialize (Hm n). unfold events in Hm.
  destruct (m n) as [[[a|e] evs] n1]; simpl in *; [exact Hm|].
  destruct (h e) as [k|] eqn:E; [|exact Hm].
  specialize (Hh e k E n1). unfold events in Hh.
  destruct (k n1) as [[r evs2] n2]. simpl in *.
  apply Forall_app. split; assumption.
Qed.

Lemma emits_for_each {A S : Type} (l : list A) (body : A -> S -> M S) :
  (forall x s, emits P (body x s)) -> forall s, emits P (for_each l body s).
Proof.
  intros H. induction l as [|x l IH]; intros s; simpl.
  - apply emits_ret.
  - apply emits_bind; [apply H | exact IH].
Qed.

Lemma emits_collect {A B : Type} (f : A -> M (list B)) (l : list A) :
  (forall x, emits P (f x)) -> emits P (collect f l).
Proof.
  intros H. induction l as [|x l IH]; simpl.
  - apply emits_ret.
  - apply emits_bind; [apply H|]. intros r.
    apply emits_bind; [exact IH|]. intros rs. apply emits_ret.
Qed.

Lemma emits_sleep (d : Z) : (forall s, P (EvSleep s)) -> emits P (sleep d).
Proof.
  intros H. unfold sleep. destruct (d <? 0); [apply emits_raise|].
  destruct (max_sleep <? d); [apply emits_raise | apply emits_emit, H].
Qed.

Lemma emits_write_file (files : filesystem) (path contents : string) :
  P (EvWrite path contents) -> emits P (write_file files path contents).
Proof.
  intros H n. unfold write_file, events.
  destruct (files n path); simpl; [repeat constructor; exact H | constructor].
Qed.

Lemma emits_session_get (sess : session) (rq : request) :
  P (EvGet rq) -> emits P (session_get sess rq).
Proof. intros H n. repeat constructor. exact H. Qed.

Lemma emits_raise_for_status (r : response) : emits P (raise_for_status r).
Proof.
  unfold raise_for_status.
  destruct ((400 <=? status_code r) && (status_code r <? 600));
    [apply emits_raise | apply emits_ret].
Qed.

Lemma emits_response_json (r : response) : emits P (response_json r).
Proof.
  unfold response_json. destruct (json_body r); [apply emits_ret | apply emits_raise].
Qed.

End Emits.

Ltac emits_step :=
  first
    [ apply emits_ret | apply emits_raise | apply emits_lift
    | apply emits_raise_for_status | apply emits_response_json
    | apply emits_bind; [|intros ?]
    | apply emits_sleep; intros ?
    | apply emits_emit
    | apply emits_write_file
    | apply emits_session_get ].

Section FetcherEmits.

Variable P : event -> Prop.
Variables (keyword venue year : string).
Variable sess : session.
Variable headers : list (string * string).
Variable sleep_time : Z.

Hypothesis P_get : P (EvGet (search_request keyword venue year headers)).
Hypothesis P_sleep : forall d, P (EvSleep d).
Hypothesis P_log : forall lv msg, fetcher_log msg = true -> P (EvLog lv msg).

Lemma try_body_emits (st : locals) :
  emits P (try_body keyword venue year sess headers sleep_time st).
Proof.
  unfold try_body. emits_step; [emits_step; exact P_get|].
  destruct (status_code _ =? 429).
  - repeat emits_step; unfold log; try emits_step; auto.
  - emits_step; [emits_step|]. unfold read_hits.
    do 4 (emits_step; [emits_step|]).
    destruct (py_eq_str _ "0").
    + repeat emits_step; unfold log; try emits_step; auto.
    + do 6 (emits_step; [emits_step|]).
      repeat emits_step; unfold log; try emits_step; auto.
Qed.

Lemma request_handler_emits (st : locals) (e : request_error) (k : M control) :
  handlers keyword venue year st (RequestException e) = Some k -> emits P k.
Proof.
  intros E. injection E as <-.
  emits_step; [unfold log; emits_step; auto|].
  destruct (max_retries <? retries st + 1);
    repeat emits_step; unfold log; try emits_step; auto.
Qed.

End FetcherEmits.

(** ** Bounds on the attempts of a query *)

Section AttemptBounds.

Variables (keyword venue year : string).
Variable sess : session.
Variable headers : list (string * string).
Variable sleep_time : Z.

Lemma while_loop_attempts (fuel : nat) :
  forall (st : locals) (n : nat),
    (attempts (events (while_loop keyword venue year sess headers sleep_time fuel st n))
       <= Z.to_nat (max_retries + 1 - retries st))%nat /\
    calls (while_loop keyword venue year sess headers sleep_time fuel st n) =
      (n + attempts (events (while_loop keyword venue year sess headers sleep_time fuel st n)))%nat.
Proof.
  induction fuel as [|fuel IH]; intros st n.
  - simpl. split; lia.
  - cbn [while_loop]. destruct (retries st <=? max_retries) eqn:T;
      [|unfold events, calls, ret; cbn [fst snd attempts]; split; lia].
    apply Z.leb_le in T.
    destruct (attempt_shape keyword venue year sess headers sleep_time st n)
      as (c & evs & A & [G|E]).
    + destruct G as (d & logs & -> & -> & Al & _).
      unfold bind. rewrite A.
      set (st' := mkLocals (retries st + 1) (backoff st * 2) (results st)).
      destruct (IH st' (S n)) as [B C].
      destruct (while_loop keyword venue year sess headers sleep_time fuel st' (S n))
        as [[r2 evs2] n2].
      unfold events, calls in *. cbn [fst snd] in *.
      cbn [attempts app]. rewrite !attempts_app, Al. cbn [attempts Nat.add].
      subst st'. cbn [retries] in B. unfold max_retries in *. split; lia.
    + destruct E as (Ae & [[st' ->]|[e ->]]); unfold bind; rewrite A;
        unfold events, calls; cbn [fst snd attempts app ret];
        rewrite ?app_nil_r, ?Ae; unfold max_retries in *; split; lia.
Qed.

End AttemptBounds.

(** X4: whatever the session answers, a query makes at least one and at most
    [max_retries + 1] = 6 calls of [session.get], and the count of calls
    advances by exactly that number. *)
Theorem X4_attempts_bounded (keyword venue year : string) (sess : session)
    (headers : list (string * string)) (sleep_time : Z) (n : nat) :
  let run := get_dblp_results keyword venue year sess headers sleep_time n in
  (1 <= attempts (events run) <= Z.to_nat (max_retries + 1))%nat /\
  calls run = (n + attempts (events run))%nat.
Proof.
  intros run. subst run. rewrite get_dblp_results_run.
  pose proof (while_loop_attempts keyword venue year sess headers sleep_time
                (S (Z.to_nat max_retries)) (mkLocals 0 initial_backoff []) n) as [B C].
  fold (fetch_loop keyword venue year sess headers sleep_time) in B, C.
  assert (L : (1 <= attempts (events (fetch_loop keyword venue year sess headers sleep_time n)))%nat).
  { unfold fetch_loop. simpl.
    destruct (attempt_shape keyword venue year sess headers sleep_time
                (mkLocals 0 initial_backoff []) n) as (c & evs & A & _).
    unfold bind. rewrite A.
    destruct c as [[st'|st']|e]; unfold events;
      repeat match goal with
             | |- context [let '(_, _) := ?x in _] => destruct x as [[? ?] ?]
             end; simpl; lia. }
  destruct (fetch_loop keyword venue year sess headers sleep_time n) as [[r evs] n'].
  unfold events, calls in *. cbn [fst snd retries] in *. split; [split|]; assumption.
Qed.

(** ** Runs of failures *)

Section RetryRuns.

Variables (keyword venue year : string).
Variable sess : session.
Variable headers : list (string * string).
Variable sleep_time : Z.

Local Abbreviation rq := (search_request keyword venue year headers).

Lemma attempt_retryable (st : locals) (n : nat) (e : request_error) :
  retryable_failure (sess n rq) = Some e ->
  attempt keyword venue year sess headers sleep_time st n =
    (fst (on_request_exception keyword venue year st e),
     EvGet rq :: snd (on_request_exception keyword venue year st e), S n).
Proof.
  unfold retryable_failure. intros H.
  destruct (sess n rq) as [r|[x| | | | | |]] eqn:G; try discriminate.
  - destruct (status_code r =? 429) eqn:E; [discriminate|].
    apply Z.eqb_neq in E.
    destruct ((400 <=? status_code r) && (status_code r <? 600)) eqn:B.
    + injection H as <-. now apply attempt_http_error.
    + destruct (json_body r) eqn:J; [discriminate|]. injection H as <-.
      assert (P : passes_status r = true).
      { unfold passes_status. rewrite B. apply Z.eqb_neq in E. now rewrite E. }
      rewrite (attempt_passes_status _ _ _ _ _ _ _ _ _ G P).
      rewrite (try_catch_request_exception keyword venue year _ st (S n) (S n)
                 JSONDecodeError []); [reflexivity|].
      unfold read_hits, response_json, bind. rewrite J. reflexivity.
  - injection H as <-. now apply attempt_transport_error.
Qed.

Lemma while_retry (fuel : nat) (st : locals) (n : nat) (e : request_error) :
  retryable_failure (sess n rq) = Some e ->
  retries st + 1 <= max_retries -> 0 <= backoff st <= max_sleep ->
  while_loop keyword venue year sess headers sleep_time (S fuel) st n =
    (let '(r, evs2, n2) :=
       while_loop keyword venue year sess headers sleep_time fuel
         (mkLocals (retries st + 1) (backoff st * 2) (results st)) (S n) in
     (r, [EvGet rq;
          EvLog ERROR (MsgFetchError keyword venue year (RequestException e));
          EvLog INFO (MsgRetrying (retries st + 1) max_retries (backoff st));
          EvSleep (backoff st)] ++ evs2, n2)).
Proof.
  intros H R [B B']. apply while_next; [lia|].
  rewrite (attempt_retryable st n e H). unfold on_request_exception.
  apply Z.ltb_ge in R, B, B'. rewrite R, B, B'. reflexivity.
Qed.

Lemma while_give_up (fuel : nat) (st : locals) (n : nat) (e : request_error) :
  retryable_failure (sess n rq) = Some e -> retries st = max_retries ->
  while_loop keyword venue year sess headers sleep_time (S fuel) st n =
    (Ok (mkLocals (retries st + 1) (backoff st) (results st)),
     [EvGet rq;
      EvLog ERROR (MsgFetchError keyword venue year (RequestException e));
      EvLog ERROR (MsgMaxRetries keyword venue year)], S n).
Proof.
  intros H R. apply while_break; [lia|].
  rewrite (attempt_retryable st n e H). unfold on_request_exception.
  assert (L : (max_retries <? retries st + 1) = true) by (apply Z.ltb_lt; lia).
  rewrite L. reflexivity.
Qed.

Lemma while_limited (fuel : nat) (st : locals) (n : nat) (r : response) :
  sess n rq = Ok r -> status_code r = 429 -> retry_after r = None ->
  retries st <= max_retries -> 0 <= backoff st <= max_sleep ->
  while_loop keyword venue year sess headers sleep_time (S fuel) st n =
    (let '(o, evs2, n2) :=
       while_loop keyword venue year sess headers sleep_time fuel
         (mkLocals (retries st + 1) (backoff st * 2) (results st)) (S n) in
     (o, [EvGet rq;
          EvLog WARNING (MsgRateLimited keyword venue year (backoff st));
          EvSleep (backoff st)] ++ evs2, n2)).
Proof.
  intros G S4 RA R [B B']. apply while_next; [lia|].
  rewrite (attempt_rate_limited _ _ _ _ _ _ _ _ _ G S4).
  unfold retry_after_value. rewrite RA. cbn [py_int].
  apply Z.ltb_ge in B, B'. rewrite B, B'. reflexivity.
Qed.

End RetryRuns.

Ltac side := cbn [retries backoff]; unfold max_retries, max_sleep; lia.

(** X5: error statuses other than 429 and bodies that are not JSON are
    retried exactly like transport errors: when every attempt ends in one of
    these, the fetcher makes 6 attempts, sleeps 5, 10, 20, 40, 80 and
    returns the empty list. *)
Theorem X5_retryable_failures_exhaust (keyword venue year : string) (sess : session)
    (headers : list (string * string)) (sleep_time : Z) (n : nat) :
  (forall i rq, retryable_failure (sess i rq) <> None) ->
  let run := get_dblp_results keyword venue year sess headers sleep_time n in
  outcome run = Ok [] /\
  attempts (events run) = 6%nat /\
  sleeps (events run) = [5; 10; 20; 40; 80] /\
  In (EvLog ERROR (MsgMaxRetries keyword venue year)) (events run).
Proof.
  intros H run. subst run.
  assert (F : forall i, exists e,
             retryable_failure (sess i (search_request keyword venue year headers)) = Some e).
  { intros i. specialize (H i (search_request keyword venue year headers)).
    destruct (retryable_failure _) as [e|]; [eauto | congruence]. }
  destruct (F n) as [e1 E1]. destruct (F (S n)) as [e2 E2].
  destruct (F (S (S n))) as [e3 E3]. destruct (F (S (S (S n)))) as [e4 E4].
  destruct (F (S (S (S (S n))))) as [e5 E5].
  destruct (F (S (S (S (S (S n)))))) as [e6 E6].
  rewrite get_dblp_results_run. unfold fetch_loop, initial_backoff.
  change (S (Z.to_nat max_retries)) with 6%nat.
  rewrite (while_retry _ _ _ _ _ _ _ _ _ _ E1) by side.
  rewrite (while_retry _ _ _ _ _ _ _ _ _ _ E2) by side.
  rewrite (while_retry _ _ _ _ _ _ _ _ _ _ E3) by side.
  rewrite (while_retry _ _ _ _ _ _ _ _ _ _ E4) by side.
  rewrite (while_retry _ _ _ _ _ _ _ _ _ _ E5) by side.
  rewrite (while_give_up _ _ _ _ _ _ _ _ _ _ E6) by reflexivity.
  unfold outcome, events. cbn [fst snd results app attempts sleeps retries backoff].
  repeat split. simpl. tauto.
Qed.

Lemma X5_retryable_failures_exhaust_witness :
  (forall i rq, retryable_failure (always_unavailable i rq) <> None) /\
  outcome (get_dblp_results "foo" "ICLR" "2024" always_unavailable default_headers 5 0%nat)
    = Ok [] /\
  attempts (events (get_dblp_results "foo" "ICLR" "2024" always_unavailable
                      default_headers 5 0%nat)) = 6%nat.
Proof.
  assert (H : forall i rq, retryable_failure (always_unavailable i rq) <> None)
    by (intros i rq; discriminate).
  split; [exact H|].
  destruct (X5_retryable_failures_exhaust "foo" "ICLR" "2024" always_unavailable
              default_headers 5 0%nat H) as (O & A & _).
  split; [exact O | exact A].
Defined.

(** X6: when every response is a 429 without Retry-After, the fetcher gives
    up after 6 attempts and returns the empty list; it sleeps after every
    one of them, also after the last: 5, 10, 20, 40, 80 and 160 seconds. *)
Theorem X6_rate_limits_exhaust (keyword venue year : string) (sess : session)
    (headers : list (string * string)) (sleep_time : Z) (n : nat) :
  (forall i rq, exists r,
      sess i rq = Ok r /\ status_code r = 429 /\ retry_after r = None) ->
  let run := get_dblp_results keyword venue year sess headers sleep_time n in
  outcome run = Ok [] /\
  attempts (events run) = 6%nat /\
  sleeps (events run) = [5; 10; 20; 40; 80; 160] /\
  retry_delays (events run) = [5; 10; 20; 40; 80] /\
  (exists before, events run = before ++ [EvSleep 160]).
Proof.
  intros H run. subst run.
  pose proof (fun i => H i (search_request keyword venue year headers)) as F.
  destruct (F n) as (r1 & G1 & S1 & A1). destruct (F (S n)) as (r2 & G2 & S2 & A2).
  destruct (F (S (S n))) as (r3 & G3 & S3 & A3).
  destruct (F (S (S (S n)))) as (r4 & G4 & S4 & A4).
  destruct (F (S (S (S (S n))))) as (r5 & G5 & S5 & A5).
  destruct (F (S (S (S (S (S n)))))) as (r6 & G6 & S6 & A6).
  rewrite get_dblp_results_run. unfold fetch_loop, initial_backoff.
  change (S (Z.to_nat max_retries)) with 6%nat.
  rewrite (while_limited _ _ _ _ _ _ _ _ _ _ G1 S1 A1) by side.
  rewrite (while_limited _ _ _ _ _ _ _ _ _ _ G2 S2 A2) by side.
  rewrite (while_limited _ _ _ _ _ _ _ _ _ _ G3 S3 A3) by side.
  rewrite (while_limited _ _ _ _ _ _ _ _ _ _ G4 S4 A4) by side.
  rewrite (while_limited _ _ _ _ _ _ _ _ _ _ G5 S5 A5) by side.
  rewrite (while_limited _ _ _ _ _ _ _ _ _ _ G6 S6 A6) by side.
  unfold outcome, events.
  cbn [while_loop ret fst snd results app attempts sleeps retry_delays retries backoff].
  repeat split.
  eexists [_; _; _; _; _; _; _; _; _; _; _; _; _; _; _; _; _]. reflexivity.
Qed.

Lemma X6_rate_limits_exhaust_witness :
  (forall i rq, exists r,
      always_limited i rq = Ok r /\ status_code r = 429 /\ retry_after r = None) /\
  sleeps (events (get_dblp_results "foo" "ICLR" "2024" always_limited default_headers 5 0%nat))
    = [5; 10; 20; 40; 80; 160].
Proof.
  assert (H : forall i rq, exists r,
             always_limited i rq = Ok r /\ status_code r = 429 /\ retry_after r = None)
    by (intros i rq; eexists; repeat split).
  split; [exact H|].
  exact (proj1 (proj2 (proj2 (X6_rate_limits_exhaust "foo" "ICLR" "2024" always_limited
                                default_headers 5 0%nat H)))).
Defined.

(** ** A success on the first attempt *)








(** ** The clause for [KeyError] *)

Lemma read_hits_no_key_error (keyword venue year : string) (sleep_time : Z)
    (r : response) (st : locals) (n : nat) (k : string) :
  outcome (read_hits keyword venue year sleep_time r st n) <> Raise (KeyError k).
Proof.
  unfold outcome, read_hits, response_json, bind, lift, log, emit, sleep, ret, raise.
  destruct (json_body r) as [data|]; [|discriminate].
  destruct (py_get data "result" (JObj [])) as [x|e] eqn:E1;
    [|rewrite (py_get_raises _ _ _ _ E1); discriminate].
  destruct (py_get x "hits" (JObj [])) as [y|e] eqn:E2;
    [|rewrite (py_get_raises _ _ _ _ E2); discriminate].
  destruct (py_get y "@total" (JStr "0")) as [t|e] eqn:E3;
    [|rewrite (py_get_raises _ _ _ _ E3); discriminate].
  destruct (py_eq_str t "0") eqn:Z0; [discriminate|].
  destruct (py_int t) as [count|e] eqn:E4;
    [|destruct (py_int_raises _ _ E4) as [-> | ->]; discriminate].
  assert (G : py_getitem data "result" = Ok x /\ py_getitem x "hits" = Ok y).
  { destruct data as [| | | | |df]; try discriminate. simpl in E1 |- *.
    destruct (lookup "result" df) as [v|].
    - injection E1 as ->. split; [reflexivity|].
      destruct x as [| | | | |xf]; try discriminate. simpl in E2 |- *.
      destruct (lookup "hits" xf) as [w|]; [congruence|].
      injection E2 as <-. simpl in E3. injection E3 as <-. discriminate.
    - injection E1 as <-. simpl in E2. injection E2 as <-.
      simpl in E3. injection E3 as <-. discriminate. }
  destruct G as [-> ->].
  destruct (py_get y "hit" (JArr [])) as [hs|e] eqn:E5;
    [|rewrite (py_get_raises _ _ _ _ E5); discriminate].
  destruct (py_iter _) as [items|e] eqn:E6;
    [|rewrite (py_iter_raises _ _ E6); discriminate].
  destruct (rmap normalize items) as [entries|e] eqn:E7.
  - destruct (sleep_time <? 0); [discriminate|].
    destruct (max_sleep <? sleep_time); discriminate.
  - assert (Q : e = AttributeError \/ e = TypeError)
      by (apply (rmap_raises _ normalize items e normalize_raises E7)).
    destruct Q as [-> | ->]; discriminate.
Qed.

Section KeyErrorClause.

Variables (keyword venue year : string).
Variable sess : session.
Variable headers : list (string * string).
Variable sleep_time : Z.

Hypothesis get_no_key_error :
  forall i k, sess i (search_request keyword venue year headers) <> Raise (KeyError k).

Lemma try_body_no_key_error (st : locals) (n : nat) (k : string) :
  outcome (try_body keyword venue year sess headers sleep_time st n) <> Raise (KeyError k).
Proof.
  unfold outcome, try_body, bind, session_get.
  destruct (sess n (search_request keyword venue year headers)) as [r|e] eqn:G.
  - destruct (status_code r =? 429).
    + unfold lift, log, emit, sleep, ret, raise.
      destruct (py_int _) as [d|e] eqn:I;
        [|destruct (py_int_raises _ _ I) as [-> | ->]; discriminate].
      destruct (d <? 0); [discriminate|].
      destruct (max_sleep <? d); discriminate.
    + unfold raise_for_status, raise, ret.
      destruct ((400 <=? status_code r) && (status_code r <? 600)); [discriminate|].
      pose proof (read_hits_no_key_error keyword venue year sleep_time r st (S n) k) as N.
      unfold outcome in N.
      destruct (read_hits keyword venue year sleep_time r st (S n)) as [[c evs] n'].
      exact N.
  - simpl. intros E. injection E as ->. exact (get_no_key_error n k G).
Qed.

Lemma attempt_no_missing_key (st : locals) (n : nat) :
  Forall (fun ev => missing_key_event ev = false)
         (events (attempt keyword venue year sess headers sleep_time st n)).
Proof.
  pose proof (try_body_emits (fun ev => missing_key_event ev = false)
                keyword venue year sess headers sleep_time eq_refl
                (fun _ => eq_refl)) as B.
  assert (L : forall lv msg, fetcher_log msg = true ->
                             missing_key_event (EvLog lv msg) = false)
    by (intros lv []; simpl; congruence).
  specialize (B L st n).
  pose proof (try_body_no_key_error st n) as K.
  unfold attempt, try_catch, events, outcome in *.
  destruct (try_body keyword venue year sess headers sleep_time st n) as [[[c|e] evs] n1];
    cbn [fst snd] in *; [exact B|].
  destruct e as [x|k| | | | |]; try exact B.
  - pose proof (request_handler_emits (fun ev => missing_key_event ev = false)
                  keyword venue year (fun _ => eq_refl) L st x _ eq_refl n1) as Hh.
    unfold events in Hh. cbn [handlers].
    match goal with
    | |- context [let '(_, _) := ?t in _] => destruct t as [[r evs2] n2]
    end.
    cbn [fst snd] in *. apply Forall_app. split; assumption.
  - exfalso. exact (K k eq_refl).
Qed.

Lemma while_loop_no_missing_key (fuel : nat) :
  forall (st : locals) (n : nat),
    Forall (fun ev => missing_key_event ev = false)
           (events (while_loop keyword venue year sess headers sleep_time fuel st n)).
Proof.
  induction fuel as [|fuel IH]; intros st n; cbn [while_loop]; [constructor|].
  destruct (retries st <=? max_retries); [|constructor].
  pose proof (attempt_no_missing_key st n) as A.
  unfold bind, events in *.
  destruct (attempt keyword venue year sess headers sleep_time st n) as [[[[st'|st']|e] evs] n1];
    cbn [fst snd] in *.
  - specialize (IH st' n1).
    destruct (while_loop keyword venue year sess headers sleep_time fuel st' n1)
      as [[r2 evs2] n2].
    cbn [fst snd] in *. apply Forall_app. split; assumption.
  - unfold ret. now rewrite app_nil_r.
  - exact A.
Qed.

End KeyErrorClause.

(** X10: when the reported total is neither "0" nor convertible by [int],
    the conversion's exception ([ValueError] or [TypeError]) leaves the
    fetcher after the one request, with nothing logged and nothing slept. *)
Theorem X10_unreadable_total_raises (keyword venue year : string) (sess : session)
    (headers : list (string * string)) (sleep_time : Z) (n : nat)
    (r : response) (data total : json) (e : exn) :
  sess n (search_request keyword venue year headers) = Ok r ->
  passes_status r = true -> json_body r = Some data ->
  total_hits_of data = Ok total -> py_eq_str total "0" = false ->
  py_int total = Raise e ->
  (e = ValueError \/ e = TypeError) /\
  get_dblp_results keyword venue year sess headers sleep_time n =
    (Raise e, [EvGet (search_request keyword venue year headers)], S n).
Proof.
  intros G P B T Z0 I. split; [exact (py_int_raises _ _ I)|].
  now apply (total_conversion_raises keyword venue year sess headers sleep_time n r data total).
Qed.

Lemma X10_unreadable_total_raises_witness :
  py_int (JStr "") = Raise ValueError /\
  get_dblp_results "foo" "all" "2024"
    (fun _ _ => Ok (ok_response (search_body (JStr "") []))) default_headers 5 0%nat =
    (Raise ValueError, [EvGet (search_request "foo" "all" "2024" default_headers)], 1%nat).
Proof.
  split; [reflexivity|].
  apply (X10_unreadable_total_raises "foo" "all" "2024"
           (fun _ _ => Ok (ok_response (search_body (JStr "") []))) default_headers 5 0%nat
           (ok_response (search_body (JStr "") [])) (search_body (JStr "") []) (JStr ""));
    reflexivity.
Defined.

(** X11: unless [session.get] itself raises a [KeyError], the [except
    KeyError] clause of the fetcher never runs: no response body can make
    the body of the [try] raise one, so its "missing key" message is never
    logged. *)
Theorem X11_key_error_clause_unused (keyword venue year : string) (sess : session)
    (headers : list (string * string)) (sleep_time : Z) (n : nat) :
  (forall i k, sess i (search_request keyword venue year headers) <> Raise (KeyError k)) ->
  Forall (fun ev => missing_key_event ev = false)
         (events (get_dblp_results keyword venue year sess headers sleep_time n)).
Proof.
  intros H. rewrite get_dblp_results_run.
  pose proof (while_loop_no_missing_key keyword venue year sess headers sleep_time H
                (S (Z.to_nat max_retries)) (mkLocals 0 initial_backoff []) n) as W.
  fold (fetch_loop keyword venue year sess headers sleep_time) in W.
  destruct (fetch_loop keyword venue year sess headers sleep_time n) as [[r evs] n'].
  exact W.
Qed.

Lemma X11_key_error_clause_unused_witness :
  (forall i k, empty_body_session i (search_request "foo" "all" "2024" default_headers)
               <> Raise (KeyError k)) /\
  Forall (fun ev => missing_key_event ev = false)
         (events (get_dblp_results "foo" "all" "2024" empty_body_session default_headers 5 0%nat)).
Proof.
  assert (H : forall i k,
             empty_body_session i (search_request "foo" "all" "2024" default_headers)
             <> Raise (KeyError k)) by (intros i k; discriminate).
  split; [exact H|].
  exact (X11_key_error_clause_unused "foo" "all" "2024" empty_body_session
           default_headers 5 0%nat H).
Defined.

(** ** What a query does besides asking *)

Lemma get_dblp_results_emits (P : event -> Prop) (keyword venue year : string)
    (sess : session) (headers : list (string * string)) (sleep_time : Z) :
  P (EvGet (search_request keyword venue year headers)) ->
  (forall d, P (EvSleep d)) ->
  (forall lv msg, fetcher_log msg = true -> P (EvLog lv msg)) ->
  (forall lv e, P (EvLog lv (MsgMissingKey keyword venue year e))) ->
  emits P (get_dblp_results keyword venue year sess headers sleep_time).
Proof.
  intros Pg Ps Pl Pm.
  assert (A : forall st, emits P (attempt keyword venue year sess headers sleep_time st)).
  { intros st. unfold attempt. apply emits_try_catch.
    - now apply try_body_emits.
    - intros [x|k| | | | |] h E; try discriminate.
      + now apply (request_handler_emits P keyword venue year Ps Pl st x).
      + injection E as <-. repeat emits_step; unfold log; try emits_step; auto. }
  assert (W : forall fuel st,
             emits P (while_loop keyword venue year sess headers sleep_time fuel st)).
  { induction fuel as [|fuel IH]; intros st; simpl; [apply emits_ret|].
    destruct (retries st <=? max_retries); [|apply emits_ret].
    apply emits_bind; [apply A|]. intros [st'|st']; [apply IH | apply emits_ret]. }
  unfold get_dblp_results, fetch_loop.
  apply emits_bind; [apply W|]. intros st. apply emits_ret.
Qed.

Lemma writes_none (evs : list event) :
  Forall (fun ev => forall p c, ev <> EvWrite p c) evs -> writes evs = [].
Proof.
  induction 1 as [|ev evs H _ IH]; [reflexivity|].
  destruct ev; simpl; auto. exfalso. now apply (H path contents).
Qed.

(** X12: every request of a query, retries included, is the same search
    request (same URL, parameters, headers and timeout), and a query writes
    no file. *)
Theorem X12_same_request_each_time (keyword venue year : string) (sess : session)
    (headers : list (string * string)) (sleep_time : Z) (n : nat) :
  let evs := events (get_dblp_results keyword venue year sess headers sleep_time n) in
  (forall rq, In (EvGet rq) evs -> rq = search_request keyword venue year headers) /\
  writes evs = [].
Proof.
  intros evs. subst evs.
  pose proof (get_dblp_results_emits
                (fun ev => (forall rq, ev = EvGet rq ->
                                       rq = search_request keyword venue year headers) /\
                           (forall p c, ev <> EvWrite p c))
                keyword venue year sess headers sleep_time) as E.
  assert (F : Forall (fun ev => (forall rq, ev = EvGet rq ->
                                            rq = search_request keyword venue year headers) /\
                                (forall p c, ev <> EvWrite p c))
                     (events (get_dblp_results keyword venue year sess headers sleep_time n))).
  { apply E; try (intros; split; intros; discriminate).
    split; [intros rq H; now injection H as <- | intros; discriminate]. }
  split.
  - intros rq I. rewrite Forall_forall in F. now apply (proj1 (F _ I)).
  - apply writes_none. eapply Forall_impl; [|exact F]. intros ev H. apply H.
Qed.

(** ** Downloads *)



(** X14: when the request of a download raises a [RequestException] or
    returns an error status (400-599, a 429 included), the function logs one
    error, writes nothing, does not retry and returns normally. *)
Theorem X14_download_failure_logged (files : filesystem) (url title : json)
    (bib_folder : string)
    (sess : session) (headers : list (string * string)) (n : nat) (e : request_error) :
  download_failure (sess n (artifact_request url headers)) = Some e ->
  download_bibtex files url title bib_folder sess headers n =
    (Ok tt,
     [EvGet (artifact_request url headers);
      EvLog ERROR (MsgDownloadError title (RequestException e))], S n).
Proof.
  unfold download_failure. intros H.
  destruct (sess n (artifact_request url headers)) as [r|[x| | | | | |]] eqn:G;
    try discriminate.
  - destruct ((400 <=? status_code r) && (status_code r <? 600)) eqn:E; [|discriminate].
    injection H as <-. now apply download_bibtex_status_fails.
  - injection H as <-. now apply download_bibtex_request_fails.
Qed.

Lemma X14_download_failure_logged_witness :
  download_bibtex willing_files (JStr "https://dblp.org/rec/x.bib") (JStr "T") "out/bibs"
    (fixed_session (rate_limited (Some "60"))) default_headers 0%nat =
    (Ok tt,
     [EvGet (artifact_request (JStr "https://dblp.org/rec/x.bib") default_headers);
      EvLog ERROR (MsgDownloadError (JStr "T") (RequestException (HTTPError 429)))], 1%nat).
Proof.
  apply (X14_download_failure_logged willing_files (JStr "https://dblp.org/rec/x.bib") (JStr "T")
           "out/bibs" (fixed_session (rate_limited (Some "60"))) default_headers 0%nat
           (HTTPError 429)).
  reflexivity.
Defined.

(** X15: whatever the session does and whatever the URL and title are, a
    download calls [session.get] exactly once and writes at most one file. *)
Theorem X15_download_single_call (files : filesystem) (url title : json)
    (bib_folder : string)
    (sess : session) (headers : list (string * string)) (n : nat) :
  let run := download_bibtex files url title bib_folder sess headers n in
  attempts (events run) = 1%nat /\ calls run = S n /\
  (List.length (writes (events run)) <= 1)%nat.
Proof.
  unfold download_bibtex, try_catch, bind, session_get, raise_for_status, events, calls.
  destruct (sess n (artifact_request url headers)) as [r|[x| | | | | |]]; simpl;
    try (repeat split; lia).
  destruct ((400 <=? status_code r) && (status_code r <? 600)); simpl;
    [repeat split; lia|].
  destruct title; simpl; try (repeat split; lia).
  unfold write_file.
  destruct (files _ _) as [[]|[x|k| | | | |]]; simpl; repeat split; lia.
Qed.

(** ** The map of the orchestrator *)

Lemma dict_set_keys {V : Type} (k : string) (v : V) (d : list (string * V)) (k' : string) :
  In k' (map fst (dict_set k v d)) <-> k' = k \/ In k' (map fst d).
Proof.
  induction d as [|[k0 v0] d IH]; simpl.
  - split; intros [E|[]]; left; congruence.
  - destruct (String.eqb_spec k k0) as [->|N]; simpl.
    + intuition congruence.
    + rewrite IH. tauto.
Qed.

Lemma dict_set_nodup {V : Type} (k : string) (v : V) (d : list (string * V)) :
  NoDup (map fst d) -> NoDup (map fst (dict_set k v d)).
Proof.
  induction d as [|[k0 v0] d IH]; simpl; intros H.
  - repeat constructor. tauto.
  - destruct (String.eqb_spec k k0) as [->|N]; simpl; [exact H|].
    inversion H as [|? ? Hn Hd]; subst. constructor; [|now apply IH].
    rewrite dict_set_keys. intros [->|I]; [now apply N | now apply Hn].
Qed.

Lemma lookup_some {V : Type} (k : string) (d : list (string * V)) :
  In k (map fst d) -> exists v, lookup k d = Some v.
Proof.
  induction d as [|[k0 v0] d IH]; simpl; [tauto|].
  destruct (String.eqb_spec k k0) as [->|N]; [eauto|].
  intros [E|I]; [congruence | now apply IH].
Qed.

Lemma for_each_dict_keys (m : string -> M (list entry)) (keywords : list string) :
  forall (d0 d : list (string * list entry)) (n : nat),
    outcome (for_each keywords (fun k all => rs <- m k ;; ret (dict_set k rs all)) d0 n) = Ok d ->
    NoDup (map fst d0) ->
    NoDup (map fst d) /\
    (forall k, In k (map fst d) <-> In k (map fst d0) \/ In k keywords).
Proof.
  induction keywords as [|k keywords IH]; intros d0 d n.
  - simpl. unfold outcome. simpl. intros E N. injection E as <-.
    split; [exact N | intros; tauto].
  - cbn [for_each]. unfold outcome, bind, ret.
    destruct (m k n) as [[[rs|e] evs] n1]; cbn [fst snd]; [|discriminate].
    cbn [app].
    specialize (IH (dict_set k rs d0) d n1). unfold outcome in IH.
    destruct (for_each keywords _ (dict_set k rs d0) n1) as [[r2 evs2] n2].
    cbn [fst snd] in *. intros E N.
    destruct (IH E (dict_set_nodup k rs d0 N)) as [Nd I].
    split; [exact Nd|]. intros k'. rewrite I, dict_set_keys. simpl. intuition congruence.
Qed.

Lemma run_keys (files : filesystem) (sess : session) (headers : list (string * string))
    (save_bibtex : bool) (bib_dir : string) (keywords venues years : list string)
    (n : nat) (d : list (string * list entry)) :
  outcome (run files sess headers save_bibtex bib_dir keywords venues years n) = Ok d ->
  NoDup (map fst d) /\
  (forall k, In k (map fst d) <-> In k keywords) /\
  (forall k, In k keywords -> exists rs, lookup k d = Some rs).
Proof.
  unfold run. intros E.
  destruct (for_each_dict_keys _ keywords [] d n E (NoDup_nil _)) as [N I].
  split; [exact N|]. split.
  - intros k. rewrite I. simpl. tauto.
  - intros k Hk. apply lookup_some. rewrite I. now right.
Qed.

(** X16: when the orchestrator returns, its map has exactly one entry for
    every keyword given, duplicates merged, and no other key. *)
Theorem X16_one_entry_per_keyword (files : filesystem) (sess : session) (headers : list (string * string))
    (save_bibtex : bool) (bib_dir : string) (keywords venues years : list string)
    (n : nat) (d : list (string * list entry)) :
  outcome (run files sess headers save_bibtex bib_dir keywords venues years n) = Ok d ->
  NoDup (map fst d) /\
  (forall k, In k (map fst d) <-> In k keywords) /\
  (forall k, In k keywords -> exists rs, lookup k d = Some rs).
Proof. apply run_keys. Qed.

Lemma X16_one_entry_per_keyword_witness :
  outcome (run willing_files one_hit_network default_headers false "out/bibs"
             ["foo"; "bar"; "foo"] ["all"] ["2024"] 0%nat)
    = Ok [("foo", [sample_entry]); ("bar", [sample_entry])] /\
  NoDup (map fst [("foo", [sample_entry]); ("bar", [sample_entry])]).
Proof.
  assert (E : outcome (run willing_files one_hit_network default_headers false "out/bibs"
                         ["foo"; "bar"; "foo"] ["all"] ["2024"] 0%nat)
              = Ok [("foo", [sample_entry]); ("bar", [sample_entry])]) by reflexivity.
  split; [exact E|].
  exact (proj1 (X16_one_entry_per_keyword willing_files one_hit_network default_headers false "out/bibs"
                  ["foo"; "bar"; "foo"] ["all"] ["2024"] 0%nat _ E)).
Defined.

Lemma list_prod_nil_r {A B : Type} (l : list A) : list_prod l (@nil B) = [].
Proof. induction l as [|x l IH]; simpl; auto. Qed.

Lemma for_each_no_queries (keywords : list string) :
  forall (d0 : list (string * list entry)) (n : nat),
    Forall (fun p => snd p = []) d0 ->
    exists d,
      for_each keywords
        (fun k all => rs <- @ret (list entry) [] ;; ret (dict_set k rs all)) d0 n
      = (Ok d, [], n) /\
      Forall (fun p => snd p = []) d.
Proof.
  induction keywords as [|k keywords IH]; intros d0 n F.
  - exists d0. split; [reflexivity | exact F].
  - cbn [for_each]. unfold bind at 1. unfold bind at 1. unfold ret at 1 2.
    cbn [app].
    assert (F' : Forall (fun p : string * list entry => snd p = []) (dict_set k [] d0)).
    { clear IH. induction d0 as [|[k0 v0] d0 IHd]; simpl; [repeat constructor|].
      inversion F; subst.
      destruct (String.eqb k k0); constructor; auto. }
    destruct (IH (dict_set k [] d0) n F') as (d & E & Fd).
    exists d. rewrite E. split; [reflexivity | exact Fd].
Qed.

(** X17: with no year or no venue there is nothing to ask: the orchestrator
    performs no request, logs nothing, and maps every keyword to the empty
    list. *)
Theorem X17_empty_product (files : filesystem) (sess : session) (headers : list (string * string))
    (save_bibtex : bool) (bib_dir : string) (keywords venues years : list string) (n : nat) :
  years = [] \/ venues = [] ->
  exists d,
    run files sess headers save_bibtex bib_dir keywords venues years n = (Ok d, [], n) /\
    (forall k, In k keywords -> lookup k d = Some []).
Proof.
  intros H.
  assert (P : list_prod years venues = [])
    by (destruct H as [-> | ->]; [reflexivity | apply list_prod_nil_r]).
  destruct (for_each_no_queries keywords [] n (Forall_nil _)) as (d & E & F).
  exists d.
  assert (R : run files sess headers save_bibtex bib_dir keywords venues years n = (Ok d, [], n)).
  { rewrite run_refines. unfold run_spec. rewrite P. exact E. }
  split; [exact R|].
  intros k Hk.
  assert (O : outcome (run files sess headers save_bibtex bib_dir keywords venues years n) = Ok d)
    by (rewrite R; reflexivity).
  destruct (proj2 (proj2 (run_keys _ _ _ _ _ _ _ _ _ _ O)) k Hk) as [rs L].
  rewrite L. f_equal.
  clear - L F. induction d as [|[k0 v0] d IH]; simpl in L; [discriminate|].
  inversion F; subst.
  destruct (String.eqb k k0); [injection L as <-; assumption | now apply IH].
Qed.

Lemma X17_empty_product_witness :
  exists d,
    run willing_files always_timeout default_headers true "out/bibs" ["foo"; "bar"] [] ["2024"; "2023"] 0%nat
      = (Ok d, [], 0%nat) /\
    (forall k, In k ["foo"; "bar"] -> lookup k d = Some []).
Proof.
  apply (X17_empty_product willing_files always_timeout default_headers true "out/bibs"
           ["foo"; "bar"] [] ["2024"; "2023"] 0%nat).
  right. reflexivity.
Defined.

(** ** Counting the queries of a run *)

Lemma queries_app (a b : list event) : queries (a ++ b) = (queries a + queries b)%nat.
Proof. unfold queries. now rewrite filter_app, length_app. Qed.

Lemma queries_none (evs : list event) :
  Forall (fun ev => fetching_event ev = false) evs -> queries evs = O.
Proof.
  unfold queries. induction 1 as [|ev evs H _ IH]; [reflexivity|].
  simpl. now rewrite H.
Qed.

Lemma counted_ret {A : Type} (a : A) : counted 0 (ret a).
Proof. intros n. split; [apply Nat.le_refl | reflexivity]. Qed.

Lemma counted_emits {A : Type} (m : M A) :
  emits (fun ev => fetching_event ev = false) m -> counted 0 m.
Proof.
  intros H n. rewrite (queries_none _ (H n)). split; [apply Nat.le_refl | reflexivity].
Qed.

Lemma counted_bind {A B : Type} (c1 c2 : nat) (m : M A) (f : A -> M B) :
  counted c1 m -> (forall a, counted c2 (f a)) -> counted (c1 + c2) (bind m f).
Proof.
  intros Hm Hf n. specialize (Hm n). unfold bind, events, outcome in *.
  destruct (m n) as [[[a|e] evs] n1]; cbn [fst snd] in *.
  - specialize (Hf a n1). unfold events, outcome in Hf.
    destruct (f a n1) as [[r evs2] n2]. cbn [fst snd] in *.
    rewrite queries_app. destruct Hm as [_ Hm]. rewrite (Hm a eq_refl).
    destruct Hf as [L E]. split; [lia|]. intros b O. rewrite (E b O). reflexivity.
  - destruct Hm as [L _]. split; [lia | discriminate].
Qed.

Lemma counted_eq {A : Type} (c c' : nat) (m : M A) : c = c' -> counted c m -> counted c' m.
Proof. now intros ->. Qed.

Lemma counted_collect {A B : Type} (f : A -> M (list B)) (l : list A) :
  (forall x, counted 1 (f x)) -> counted (List.length l) (collect f l).
Proof.
  intros H. induction l as [|x l IH]; simpl; [apply counted_ret|].
  apply (counted_eq (1 + (List.length l + 0))); [lia|].
  apply counted_bind; [apply H|]. intros r.
  apply counted_bind; [exact IH|]. intros rs. apply counted_ret.
Qed.

Lemma counted_for_each {A S : Type} (c : nat) (l : list A) (body : A -> S -> M S) :
  (forall x s, counted c (body x s)) ->
  forall s, counted (List.length l * c) (for_each l body s).
Proof.
  intros H. induction l as [|x l IH]; intros s; simpl; [apply counted_ret|].
  apply counted_bind; [apply H | exact IH].
Qed.

Lemma download_bibtex_not_fetching (files : filesystem) (url title : json) (bib_folder : string)
    (sess : session) (headers : list (string * string)) :
  emits (fun ev => fetching_event ev = false)
        (download_bibtex files url title bib_folder sess headers).
Proof.
  unfold download_bibtex. apply emits_try_catch.
  - repeat emits_step; unfold log; try emits_step; reflexivity.
  - intros [x| | | | | |] k E; try discriminate. injection E as <-.
    unfold log. now apply emits_emit.
Qed.

Lemma fetch_query_counted (files : filesystem) (sess : session) (headers : list (string * string))
    (save_bibtex : bool) (bib_dir : string) (keyword : string) (yv : string * string) :
  counted 1 (fetch_query files sess headers save_bibtex bib_dir keyword yv).
Proof.
  unfold fetch_query.
  apply (counted_eq (1 + 0)); [reflexivity|].
  apply counted_bind.
  - intros n. split; [apply Nat.le_refl | reflexivity].
  - intros _. apply counted_emits.
    apply emits_bind.
    + apply get_dblp_results_emits; try reflexivity.
      intros lv []; simpl; congruence.
    + intros results. apply emits_bind; [|intros; apply emits_ret].
      destruct save_bibtex; [|apply emits_ret].
      apply emits_for_each. intros r []. apply download_bibtex_not_fetching.
Qed.

(** X18: a run announces at most one query per keyword, year and venue, and
    exactly [|keywords| * |years| * |venues|] of them when it returns. *)
Theorem X18_one_query_per_combination (files : filesystem) (sess : session) (headers : list (string * string))
    (save_bibtex : bool) (bib_dir : string) (keywords venues years : list string) (n : nat) :
  let total := (List.length keywords * (List.length years * List.length venues))%nat in
  let evs := events (run files sess headers save_bibtex bib_dir keywords venues years n) in
  (queries evs <= total)%nat /\
  (forall d, outcome (run files sess headers save_bibtex bib_dir keywords venues years n) = Ok d ->
             queries evs = total).
Proof.
  intros total evs. subst total evs. rewrite run_refines.
  unfold run_spec. rewrite <- length_prod.
  apply counted_for_each. intros keyword d.
  apply (counted_eq (List.length (list_prod years venues) + 0)); [lia|].
  apply counted_bind; [|intros; apply counted_ret].
  apply counted_collect. intros yv. apply fetch_query_counted.
Qed.

Lemma X18_one_query_per_combination_witness :
  (exists d, outcome (run willing_files echo_network default_headers false "out/bibs"
                        ["k"; "l"] ["a"; "b"; "c"] ["1"; "2"] 0%nat) = Ok d) /\
  queries (events (run willing_files echo_network default_headers false "out/bibs"
                     ["k"; "l"] ["a"; "b"; "c"] ["1"; "2"] 0%nat)) = 12%nat.
Proof.
  destruct (outcome (run willing_files echo_network default_headers false "out/bibs"
                       ["k"; "l"] ["a"; "b"; "c"] ["1"; "2"] 0%nat)) as [d|e] eqn:O.
  - split; [now exists d|].
    exact (proj2 (X18_one_query_per_combination willing_files echo_network default_headers false
                    "out/bibs" ["k"; "l"] ["a"; "b"; "c"] ["1"; "2"] 0%nat) d O).
  - vm_compute in O. discriminate.
Defined.

(** X19: without [save_bibtex] a run writes no file, and every request it
    makes is a search request to the API's URL. *)
Theorem X19_no_download_without_flag (files : filesystem) (sess : session) (headers : list (string * string))
    (bib_dir : string) (keywords venues years : list string) (n : nat) :
  let evs := events (run files sess headers false bib_dir keywords venues years n) in
  writes evs = [] /\
  (forall rq, In (EvGet rq) evs -> rq_url rq = JStr base_url /\ rq_args rq = []).
Proof.
  intros evs. subst evs.
  set (P := fun ev => (forall p c, ev <> EvWrite p c) /\
                      (forall rq, ev = EvGet rq -> rq_url rq = JStr base_url /\ rq_args rq = [])).
  assert (F : emits P (run files sess headers false bib_dir keywords venues years)).
  { unfold run. apply emits_for_each. intros keyword d.
    apply emits_bind; [|intros; apply emits_ret].
    apply emits_for_each. intros year kr. apply emits_for_each. intros venue kr'.
    unfold query_step. apply emits_bind.
    - unfold log. apply emits_emit. split; intros; discriminate.
    - intros _. apply emits_bind; [|intros; repeat emits_step].
      apply get_dblp_results_emits; try (intros; split; intros; discriminate).
      split; [intros; discriminate|]. intros rq E. injection E as <-. split; reflexivity. }
  specialize (F n). split.
  - apply writes_none. eapply Forall_impl; [|exact F]. intros ev H. apply H.
  - intros rq I. rewrite Forall_forall in F. now apply (proj2 (F _ I)).
Qed.

(** ** The sheets of the report *)

Lemma substring_prefix_length (m : nat) (s : string) :
  (String.length (substring 0 m s) <= m)%nat.
Proof.
  revert s. induction m as [|m IH]; intros [|c s]; simpl; try lia.
  specialize (IH s). lia.
Qed.

Lemma substring_prefix_chars (m : nat) (s : string) (c : ascii) :
  In c (list_ascii_of_string (substring 0 m s)) -> In c (list_ascii_of_string s).
Proof.
  revert s. induction m as [|m IH]; intros [|x s]; simpl; try tauto.
  intros [E|I]; [now left | right; now apply IH].
Qed.

Lemma replace_invalid_chars (s : string) (c : ascii) :
  In c (list_ascii_of_string (replace_invalid s)) -> invalid_in_filename c = false.
Proof.
  induction s as [|x s IH]; simpl; [tauto|].
  intros [<-|I]; [|now apply IH].
  destruct (invalid_in_filename x) eqn:E; [reflexivity | exact E].
Qed.

Lemma write_sheets_sheets (xl : excel) (items : list (string * list entry)) :
  forall (i : nat) (name : string) (rows : list entry),
    In (XlSheet name rows) (snd (write_sheets xl i items)) ->
    rows <> [] /\
    exists keyword, In (keyword, rows) items /\
                    name = substring 0 31 (replace_invalid keyword).
Proof.
  induction items as [|[k [|r rs]] items IH]; intros i name rows; simpl.
  - tauto.
  - specialize (IH i name rows).
    destruct (write_sheets xl i items) as [res evs]. simpl in *.
    intros [E|I]; [discriminate|].
    destruct (IH I) as (N & k' & Hk & Hn). split; [exact N|]. exists k'. auto.
  - destruct (xl_to_excel xl i (substring 0 31 (replace_invalid k)) (r :: rs)).
    + simpl. intros [E|[]]. injection E as <- <-.
      split; [discriminate|]. exists k. auto.
    + specialize (IH (S i) name rows).
      destruct (write_sheets xl (S i) items) as [res evs]. simpl in *.
      intros [E|I].
      * injection E as <- <-. split; [discriminate|]. exists k. auto.
      * destruct (IH I) as (N & k' & Hk & Hn). split; [exact N|]. exists k'. auto.
Qed.

(** X20: whatever the spreadsheet library does, every sheet the report
    function asks it to write belongs to a keyword of the map that has
    results, and is named by the first 31 characters of the sanitised
    keyword: at most 31 characters, none of them forbidden in a file name.
    A keyword without results is never written. *)
Theorem X20_sheet_names (xl : excel) (filename : string)
    (all_results : list (string * list entry)) (name : string) (rows : list entry) :
  In (XlSheet name rows) (save_results_to_excel_file xl filename all_results) ->
  rows <> [] /\
  (String.length name <= 31)%nat /\
  (forall c, In c (list_ascii_of_string name) -> invalid_in_filename c = false) /\
  exists keyword, In (keyword, rows) all_results /\
                  name = substring 0 31 (replace_invalid keyword).
Proof.
  unfold save_results_to_excel_file. intros H.
  assert (I : In (XlSheet name rows) (snd (write_sheets xl 0 all_results))).
  { destruct (xl_open xl filename).
    - simpl in H. destruct H as [E|[E|[]]]; discriminate.
    - destruct (write_sheets xl 0 all_results) as [r evs]. simpl in *.
      destruct H as [E|H]; [discriminate|].
      apply in_app_or in H. destruct H as [H|[E|H]]; [exact H | discriminate |].
      destruct (xl_close xl), r; simpl in H; destruct H as [E|[]]; discriminate. }
  destruct (write_sheets_sheets xl all_results 0 name rows I) as (N & k & Hk & ->).
  split; [exact N|]. split; [apply substring_prefix_length|].
  split; [|eauto].
  intros c Hc. eapply replace_invalid_chars, substring_prefix_chars, Hc.
Qed.

Lemma X20_sheet_names_witness :
  In (XlSheet "data condensation_ a survey of " [sample_entry])
     (save_results_to_excel_file willing_excel "out/results.xlsx"
        [("none", []); ("data condensation: a survey of methods", [sample_entry])]) /\
  (String.length "data condensation_ a survey of " <= 31)%nat.
Proof.
  assert (I : In (XlSheet "data condensation_ a survey of " [sample_entry])
                 (save_results_to_excel_file willing_excel "out/results.xlsx"
                    [("none", []); ("data condensation: a survey of methods", [sample_entry])]))
    by (simpl; tauto).
  split; [exact I|].
  exact (proj1 (proj2 (X20_sheet_names willing_excel "out/results.xlsx" _ _ _ I))).
Defined.

(** ** Downloads through the session of [main] *)

Lemma download_through_session (files : filesystem) (url title : json) (bib_folder : string)
    (network : session) (headers : list (string * string)) (n : nat) :
  download_bibtex files url title bib_folder (Session network) headers n =
    (Raise TypeError, [EvGet (artifact_request url headers)], S n).
Proof. reflexivity. Qed.

Lemma dict_set_all_empty (k : string) (d : list (string * list entry)) :
  Forall (fun p => snd p = []) d -> Forall (fun p => snd p = []) (dict_set k [] d).
Proof.
  induction d as [|[k0 v0] d IH]; simpl; intros F; [repeat constructor|].
  inversion F; subst. destruct (String.eqb k k0); constructor; auto.
Qed.

Lemma lookup_all_empty (k : string) (d : list (string * list entry)) (rs : list entry) :
  Forall (fun p => snd p = []) d -> lookup k d = Some rs -> rs = [].
Proof.
  induction d as [|[k0 v0] d IH]; simpl; intros F L; [discriminate|].
  inversion F; subst.
  destruct (String.eqb k k0); [injection L as <-; assumption | now apply IH].
Qed.

Section MainDownloads.

Variable files : filesystem.
Variable network : session.
Variable headers : list (string * string).
Variable bib_dir : string.

Lemma fetch_query_returns_nothing (keyword : string) (yv : string * string) (n : nat)
    (rs : list entry) :
  outcome (fetch_query files (Session network) headers true bib_dir keyword yv n) = Ok rs ->
  rs = [].
Proof.
  unfold fetch_query, outcome, bind, log, emit.
  destruct (get_dblp_results keyword (snd yv) (fst yv) (Session network) headers 5 n)
    as [[[results|e] evs] n1]; cbn [fst snd]; [|discriminate].
  destruct results as [|r results]; [intros E; now injection E as <-|].
  cbn [for_each]. unfold bind. rewrite download_through_session. discriminate.
Qed.

Lemma collect_returns_nothing (keyword : string) (l : list (string * string)) :
  forall (n : nat) (rs : list entry),
    outcome (collect (fetch_query files (Session network) headers true bib_dir keyword) l n) = Ok rs ->
    rs = [].
Proof.
  induction l as [|yv l IH]; intros n rs; cbn [collect].
  - intros E. now injection E as <-.
  - pose proof (fetch_query_returns_nothing keyword yv n) as Q.
    unfold outcome, bind, ret in *.
    destruct (fetch_query files (Session network) headers true bib_dir keyword yv n)
      as [[[r|e] evs] n1]; cbn [fst snd] in *; [|discriminate].
    rewrite (Q r eq_refl). specialize (IH n1).
    destruct (collect _ l n1) as [[[rs'|e] evs2] n2]; cbn [fst snd] in *; [|discriminate].
    intros E. injection E as <-. now apply IH.
Qed.

Lemma run_spec_returns_nothing (keywords venues years : list string) :
  forall (d0 d : list (string * list entry)) (n : nat),
    Forall (fun p => snd p = []) d0 ->
    outcome (for_each keywords
               (fun keyword all_results =>
                  rs <- collect (fetch_query files (Session network) headers true bib_dir keyword)
                                (list_prod years venues) ;;
                  ret (dict_set keyword rs all_results)) d0 n) = Ok d ->
    Forall (fun p => snd p = []) d.
Proof.
  induction keywords as [|k keywords IH]; intros d0 d n F; cbn [for_each].
  - intros E. now injection E as <-.
  - pose proof (collect_returns_nothing k (list_prod years venues) n) as Q.
    unfold outcome, bind, ret in *.
    destruct (collect _ (list_prod years venues) n) as [[[rs|e] evs] n1];
      cbn [fst snd] in *; [|discriminate].
    rewrite (Q rs eq_refl). cbn [app].
    specialize (IH (dict_set k [] d0) d n1 (dict_set_all_empty k d0 F)).
    destruct (for_each keywords _ (dict_set k [] d0) n1) as [[r2 evs2] n2].
    cbn [fst snd] in *. exact IH.
Qed.

Lemma run_session_no_write (save_bibtex : bool) (keywords venues years : list string) :
  emits (fun ev => forall p c, ev <> EvWrite p c)
        (run files (Session network) headers save_bibtex bib_dir keywords venues years).
Proof.
  unfold run. apply emits_for_each. intros keyword d.
  apply emits_bind; [|intros; apply emits_ret].
  apply emits_for_each. intros year kr. apply emits_for_each. intros venue kr'.
  unfold query_step. apply emits_bind.
  - unfold log. apply emits_emit. intros; discriminate.
  - intros _. apply emits_bind.
    + apply get_dblp_results_emits; intros; discriminate.
    + intros results. apply emits_bind; [|intros; apply emits_ret].
      destruct save_bibtex; [|apply emits_ret].
      apply emits_for_each. intros r [] n. rewrite download_through_session.
      repeat constructor. intros; discriminate.
Qed.

End MainDownloads.

(** X21: through the session that [main] creates, no run ever writes a
    citation file, with or without [save_bibtex]; and with [save_bibtex] on,
    [main] can only return when no query found anything, every keyword
    being mapped to the empty list. *)
Theorem X21_main_never_writes (files : filesystem) (network : session) (save_bibtex : bool) (outdir : string)
    (keywords venues years : list string) (n : nat) :
  writes (events (main files network save_bibtex outdir keywords venues years n)) = [] /\
  (forall d k rs,
     outcome (main files network true outdir keywords venues years n) = Ok d ->
     lookup k d = Some rs -> rs = []).
Proof.
  unfold main, create_session_with_retries. split.
  - apply writes_none. apply run_session_no_write.
  - intros d k rs O L. rewrite run_refines in O.
    eapply lookup_all_empty; [|exact L].
    eapply run_spec_returns_nothing; [|exact O]. constructor.
Qed.

Lemma X21_main_never_writes_witness :
  writes (events (main willing_files one_hit_network true "out" ["foo"] ["all"] ["2024"] 0%nat)) = [] /\
  outcome (main willing_files zero_total_session true "out" ["foo"] ["all"] ["2024"] 0%nat)
    = Ok [("foo", [])] /\
  (forall rs, lookup "foo" [("foo", @nil entry)] = Some rs -> rs = []).
Proof.
  split; [exact (proj1 (X21_main_never_writes willing_files one_hit_network true "out"
                          ["foo"] ["all"] ["2024"] 0%nat))|].
  split; [reflexivity|].
  intros rs L.
  exact (proj2 (X21_main_never_writes willing_files zero_total_session true "out"
                  ["foo"] ["all"] ["2024"] 0%nat) [("foo", [])] "foo" rs eq_refl L).
Defined.
